(** * Support tools: the user-data API wrappers ([src/users/api.js])

    A shallow embedding of the asynchronous API wrappers of the support
    front end, and the properties of the aggregated user lookup
    ([getAllUserData]) and of its single-resource helpers.

    The embedding follows the source line by line:
    - JavaScript values are a small inductive type ([JsValue]);
    - the two identifier patterns are regular expressions, matched by
      derivatives;
    - [JSON.parse] is a recogniser of JSON text (its result is only printed);
    - every [async] function is a computation in a state-and-exception monad
      whose state records the requests sent to the remote service and the
      lines written to the console. *)

From Stdlib Require Import String Ascii List ZArith Bool Lia.
Import ListNotations.

Set Warnings "-register-all".

Local Open Scope list_scope.
Local Open Scope string_scope.

(** ** JavaScript values *)

Module Js.

(** A number is kept as its canonical decimal text (what [String(n)]
    prints): the module never computes with numbers, it only interpolates
    them into URLs and tests them for truthiness. *)
Inductive JsValue : Type :=
| JUndefined
| JNull
| JBool (b : bool)
| JNum (repr : string)
| JStr (s : string)
| JArr (items : list JsValue)
| JObj (props : list (string * JsValue)).

(** The double-quote character, for the quoted identifiers of messages. *)
Definition dquote : string := String (ascii_of_nat 34) EmptyString.

(** An element of an array inside [Array.prototype.join]: [null] and
    [undefined] print as nothing. *)
Definition join_item (to_string : JsValue -> string) (v : JsValue) : string :=
  match v with
  | JUndefined | JNull => EmptyString
  | _ => to_string v
  end.

(** [`${v}`]: the string conversion of a template literal. *)
Fixpoint ToString (v : JsValue) : string :=
  match v with
  | JUndefined => "undefined"
  | JNull => "null"
  | JBool true => "true"
  | JBool false => "false"
  | JNum repr => repr
  | JStr s => s
  | JArr items => String.concat "," (map (join_item ToString) items)
  | JObj _ => "[object Object]"
  end.

(** The truthiness test of [if (v)]. *)
Definition truthy (v : JsValue) : bool :=
  match v with
  | JUndefined | JNull => false
  | JBool b => b
  | JNum repr =>
      negb (String.eqb repr "0" || String.eqb repr "-0" || String.eqb repr "NaN")
  | JStr s => negb (String.eqb s EmptyString)
  | JArr _ | JObj _ => true
  end.

Fixpoint assoc (key : string) (props : list (string * JsValue)) : JsValue :=
  match props with
  | [] => JUndefined
  | (k, v) :: rest => if String.eqb k key then v else assoc key rest
  end.

(** [v.key] for a value that is neither [null] nor [undefined], and a key
    that no prototype defines ([username], [retirementDate], ...): own
    properties of objects, [undefined] everywhere else. *)
Definition get (v : JsValue) (key : string) : JsValue :=
  match v with
  | JObj props => assoc key props
  | _ => JUndefined
  end.

End Js.
Export Js.

(** ** Regular expressions

    [userIdentifier.match(PATTERN)] with a pattern string compiles the
    pattern without flags; both patterns are anchored with [^] and [$], so a
    match is a match of the whole identifier. *)

Module Regex.

Inductive regex : Type :=
| Never
| Empty
| Chr (c : ascii)
| Class (p : ascii -> bool)
| Seq (r1 r2 : regex)
| Alt (r1 r2 : regex)
| Star (r : regex).

(** [r+] and [r{2,}] *)
Definition Plus (r : regex) : regex := Seq r (Star r).
Definition AtLeast2 (r : regex) : regex := Seq r (Seq r (Star r)).

Fixpoint nullable (r : regex) : bool :=
  match r with
  | Never => false
  | Empty => true
  | Chr _ => false
  | Class _ => false
  | Seq r1 r2 => nullable r1 && nullable r2
  | Alt r1 r2 => nullable r1 || nullable r2
  | Star _ => true
  end.

Fixpoint deriv (c : ascii) (r : regex) : regex :=
  match r with
  | Never => Never
  | Empty => Never
  | Chr c' => if Ascii.eqb c c' then Empty else Never
  | Class p => if p c then Empty else Never
  | Seq r1 r2 =>
      if nullable r1
      then Alt (Seq (deriv c r1) r2) (deriv c r2)
      else Seq (deriv c r1) r2
  | Alt r1 r2 => Alt (deriv c r1) (deriv c r2)
  | Star r1 => Seq (deriv c r1) (Star r1)
  end.

Fixpoint matches (r : regex) (s : string) : bool :=
  match s with
  | EmptyString => nullable r
  | String c rest => matches (deriv c r) rest
  end.

Definition between (lo hi c : ascii) : bool :=
  (nat_of_ascii lo <=? nat_of_ascii c)%nat && (nat_of_ascii c <=? nat_of_ascii hi)%nat.

Definition one_of (chars : string) (c : ascii) : bool :=
  existsb (Ascii.eqb c) (list_ascii_of_string chars).

Definition lower := between "a" "z".
Definition upper := between "A" "Z".
Definition digit := between "0" "9".

(** [[a-zA-Z]] *)
Definition alpha (c : ascii) : bool := lower c || upper c.
(** [\w] *)
Definition word (c : ascii) : bool := alpha c || digit c || Ascii.eqb c "_".

End Regex.
Export Regex.

(** [EMAIL_REGEX = '^[a-zA-Z0-9._%+-]+@[a-zA-Z0-9.-]+\\.[a-zA-Z]{2,}$'] *)
Definition EMAIL_REGEX : regex :=
  Seq (Plus (Class (fun c => alpha c || digit c || one_of "._%+-" c)))
 (Seq (Chr "@")
 (Seq (Plus (Class (fun c => alpha c || digit c || one_of ".-" c)))
 (Seq (Chr ".")
      (AtLeast2 (Class alpha))))).

(** [USERNAME_REGEX = '^[\\w.@_+-]+$'] *)
Definition USERNAME_REGEX : regex :=
  Plus (Class (fun c => word c || one_of ".@_+-" c)).

(** ** JSON text

    [console.log(JSON.parse(text))] only prints the parsed value, so the
    model keeps what decides the control flow: whether [text] is JSON text
    (ECMA-404), since [JSON.parse] raises a [SyntaxError] when it is not.
    The recogniser reads the text once, left to right, with the stack of the
    arrays and objects that are still open. *)

Module Json.

Inductive Container : Type := InArray | InObject.

Inductive State : Type :=
| Value                       (* a value starts here *)
| ArrayStart                  (* after [[]: a value or []] *)
| ObjectStart                 (* after [{]: a key or [}] *)
| Key                         (* after [,] in an object: a key *)
| Colon                       (* after a key *)
| After                       (* after a complete value *)
| InString (key : bool)
| Escape (key : bool)         (* after a backslash *)
| Hex (key : bool) (n : nat)  (* [n] more hexadecimal digits of [\uXXXX] *)
| Literal (rest : list ascii) (* the rest of [true], [false] or [null] *)
| Minus | Zero | Int | Dot | Frac | Exp | ExpSign | ExpDigits.

Definition ws (c : ascii) : bool :=
  existsb (Ascii.eqb c) [ascii_of_nat 32; ascii_of_nat 9; ascii_of_nat 10; ascii_of_nat 13].

Definition nonzero := between "1" "9".
Definition hexdigit (c : ascii) : bool :=
  digit c || between "a" "f" c || between "A" "F" c.

Definition close (what : Container) (stack : list Container)
  : option (State * list Container) :=
  match what, stack with
  | InArray, InArray :: outer => Some (After, outer)
  | InObject, InObject :: outer => Some (After, outer)
  | _, _ => None
  end.

(** The character that follows a complete value. *)
Definition after_value (stack : list Container) (c : ascii)
  : option (State * list Container) :=
  if ws c then Some (After, stack)
  else if Ascii.eqb c "," then
    match stack with
    | InArray :: _ => Some (Value, stack)
    | InObject :: _ => Some (Key, stack)
    | [] => None
    end
  else if Ascii.eqb c "]" then close InArray stack
  else if Ascii.eqb c "}" then close InObject stack
  else None.

(** The first character of a value. *)
Definition start_value (stack : list Container) (c : ascii)
  : option (State * list Container) :=
  if Ascii.eqb c "{" then Some (ObjectStart, InObject :: stack)
  else if Ascii.eqb c "[" then Some (ArrayStart, InArray :: stack)
  else if Ascii.eqb c (ascii_of_nat 34) then Some (InString false, stack)
  else if Ascii.eqb c "-" then Some (Minus, stack)
  else if Ascii.eqb c "0" then Some (Zero, stack)
  else if nonzero c then Some (Int, stack)
  else if Ascii.eqb c "t" then Some (Literal (list_ascii_of_string "rue"), stack)
  else if Ascii.eqb c "f" then Some (Literal (list_ascii_of_string "alse"), stack)
  else if Ascii.eqb c "n" then Some (Literal (list_ascii_of_string "ull"), stack)
  else None.

Definition is_exp (c : ascii) : bool := Ascii.eqb c "e" || Ascii.eqb c "E".

Definition step (st : State) (stack : list Container) (c : ascii)
  : option (State * list Container) :=
  match st with
  | Value => if ws c then Some (Value, stack) else start_value stack c
  | ArrayStart =>
      if ws c then Some (ArrayStart, stack)
      else if Ascii.eqb c "]" then close InArray stack
      else start_value stack c
  | ObjectStart =>
      if ws c then Some (ObjectStart, stack)
      else if Ascii.eqb c "}" then close InObject stack
      else if Ascii.eqb c (ascii_of_nat 34) then Some (InString true, stack)
      else None
  | Key =>
      if ws c then Some (Key, stack)
      else if Ascii.eqb c (ascii_of_nat 34) then Some (InString true, stack)
      else None
  | Colon =>
      if ws c then Some (Colon, stack)
      else if Ascii.eqb c ":" then Some (Value, stack)
      else None
  | After => after_value stack c
  | InString key =>
      if Ascii.eqb c (ascii_of_nat 34) then Some (if key then Colon else After, stack)
      else if Ascii.eqb c (ascii_of_nat 92) then Some (Escape key, stack)
      else if (nat_of_ascii c <? 32)%nat then None
      else Some (InString key, stack)
  | Escape key =>
      if Ascii.eqb c "u" then Some (Hex key 4, stack)
      else if Ascii.eqb c (ascii_of_nat 34) || Ascii.eqb c (ascii_of_nat 92)
              || one_of "/bfnrt" c
      then Some (InString key, stack)
      else None
  | Hex key n =>
      if hexdigit c
      then Some (match n with
                 | S (S m) => Hex key (S m)
                 | _ => InString key
                 end, stack)
      else None
  | Literal rest =>
      match rest with
      | expected :: more =>
          if Ascii.eqb c expected
          then Some (match more with [] => After | _ => Literal more end, stack)
          else None
      | [] => None
      end
  | Minus =>
      if Ascii.eqb c "0" then Some (Zero, stack)
      else if nonzero c then Some (Int, stack)
      else None
  | Zero =>
      if Ascii.eqb c "." then Some (Dot, stack)
      else if is_exp c then Some (Exp, stack)
      else after_value stack c
  | Int =>
      if digit c then Some (Int, stack)
      else if Ascii.eqb c "." then Some (Dot, stack)
      else if is_exp c then Some (Exp, stack)
      else after_value stack c
  | Dot => if digit c then Some (Frac, stack) else None
  | Frac =>
      if digit c then Some (Frac, stack)
      else if is_exp c then Some (Exp, stack)
      else after_value stack c
  | Exp =>
      if Ascii.eqb c "+" || Ascii.eqb c "-" then Some (ExpSign, stack)
      else if digit c then Some (ExpDigits, stack)
      else None
  | ExpSign => if digit c then Some (ExpDigits, stack) else None
  | ExpDigits =>
      if digit c then Some (ExpDigits, stack) else after_value stack c
  end.

(** At the end of the text: one complete value, nothing left open. *)
Definition complete (st : State) (stack : list Container) : bool :=
  match st, stack with
  | (After | Zero | Int | Frac | ExpDigits), [] => true
  | _, _ => false
  end.

Fixpoint scan (st : State) (stack : list Container) (text : string) : bool :=
  match text with
  | EmptyString => complete st stack
  | String c rest =>
      match step st stack c with
      | Some (st', stack') => scan st' stack' rest
      | None => false
      end
  end.

(** [JSON.parse(text)] returns (rather than raising [SyntaxError]). *)
Definition parses (text : string) : bool := scan Value [] text.

End Json.

(** ** Errors, requests and the platform *)

(** [{code, dismissible, text, type, topic}]: what the banner renders. *)
Record ErrorDescriptor : Type := {
  code : JsValue;
  dismissible : bool;
  text : string;
  type : string;
  topic : string
}.

(** What the HTTP client attaches to a failure it raises. *)
Record CustomAttributes : Type := {
  httpErrorStatus : Z;
  httpErrorResponseData : string
}.

(** An object used as an error: the failure raised by the HTTP client
    (with [customAttributes]) or the fresh [{}] of [getRetirement]; the
    functions below attach [userError] to it. *)
Record ErrorObject : Type := {
  customAttributes : option CustomAttributes;
  userError : option ErrorDescriptor
}.

Definition set_userError (error : ErrorObject) (descriptor : ErrorDescriptor)
  : ErrorObject :=
  {| customAttributes := customAttributes error; userError := Some descriptor |}.

(** What a [throw] (or a rejected promise) carries. *)
Inductive Thrown : Type :=
| Failure (error : ErrorObject)   (* a failure of the HTTP client *)
| Error (message : string)        (* [new Error(message)] *)
| TypeError                       (* a property read on [null] or [undefined] *)
| SyntaxError.                    (* [JSON.parse] on a text that is not JSON *)

(** [error.userError], [undefined] on the errors of the language. *)
Definition thrown_userError (error : Thrown) : option ErrorDescriptor :=
  match error with
  | Failure e => userError e
  | _ => None
  end.

Inductive Method : Type := GET | PATCH | POST.

Record Request : Type := {
  method : Method;
  url : string;
  payload : option JsValue
}.

(** The response of the remote service: the [data] of a 2xx response, or
    the status and the raw body of a failure. *)
Inductive Response : Type :=
| Ok (data : JsValue)
| Fail (status : Z) (body : string).

(** The ambient collaborators of the module: [getConfig()], the
    authenticated HTTP client (the remote service answers a request knowing
    the requests sent before it), [camelCaseObject], and the text that
    [`${new Date(v)}`] prints. *)
Class Platform : Type := {
  LMS_BASE_URL : string;
  DISCOVERY_API_BASE_URL : string;
  camelCaseObject : JsValue -> JsValue;
  Date_toString : JsValue -> string;
  remote : list Request -> Request -> Response
}.

(** ** The monad of [async] functions *)

(** The observable effects: requests sent, in order, and console lines. *)
Record World : Type := {
  requests : list Request;
  console : list string
}.

Inductive Outcome (A : Type) : Type :=
| Return (value : A)
| Throw (error : Thrown).
Arguments Return {A} value.
Arguments Throw {A} error.

Definition Async (A : Type) : Type := World -> Outcome A * World.

Definition ret {A} (value : A) : Async A := fun w => (Return value, w).

Definition throw {A} (error : Thrown) : Async A := fun w => (Throw error, w).

Definition bind {A B} (m : Async A) (k : A -> Async B) : Async B :=
  fun w =>
    match m w with
    | (Return value, w') => k value w'
    | (Throw error, w') => (Throw error, w')
    end.

(** [try { m } catch (error) { handler }] *)
Definition try_catch {A} (m : Async A) (handler : Thrown -> Async A) : Async A :=
  fun w =>
    match m w with
    | (Return value, w') => (Return value, w')
    | (Throw error, w') => handler error w'
    end.

Declare Scope async_scope.
Delimit Scope async_scope with async.
Notation "x <- m ;; k" := (bind m (fun x => k))
  (at level 61, m at next level, right associativity) : async_scope.
Notation "m ;;; k" := (bind m (fun _ => k))
  (at level 61, right associativity) : async_scope.
Local Open Scope async_scope.

(** [console.log(JSON.parse(text))] *)
Definition log_json (text : string) : Async unit :=
  fun w =>
    if Json.parses text
    then (Return tt, {| requests := requests w; console := (console w ++ [text])%list |})
    else (Throw SyntaxError, w).

(** The first read of [error.customAttributes.<field>] in a handler: a
    [TypeError] when the caught value has no [customAttributes]. *)
Definition with_attributes {A} (error : Thrown)
    (k : ErrorObject -> CustomAttributes -> Async A) : Async A :=
  match error with
  | Failure e =>
      match customAttributes e with
      | Some attributes => k e attributes
      | None => throw TypeError
      end
  | _ => throw TypeError
  end.

(** [value.key], a [TypeError] on [null] and [undefined]. *)
Definition member (value : JsValue) (key : string) : Async JsValue :=
  match value with
  | JUndefined | JNull => throw TypeError
  | _ => ret (get value key)
  end.

(** A parameter with the default [= null]. *)
Definition default_null (value : JsValue) : JsValue :=
  match value with
  | JUndefined => JNull
  | _ => value
  end.

(** ** The API wrappers *)

(** What [getAllUserData] returns: the descriptors pushed so far, and the
    data of the lookups that ran. *)
Record AggregateResult : Type := {
  errors : list (option ErrorDescriptor);   (* [None] is [undefined] *)
  user : JsValue;
  entitlements : JsValue;
  enrollments : JsValue;
  verificationStatus : JsValue
}.

(** What [getCourseData] and the mutations resolve to: the remote [data],
    or [{errors: [...]}]. *)
Inductive Reply : Type :=
| Data (data : JsValue)
| Errors (errors : list ErrorDescriptor).

Record PatchEntitlementArgs : Type := {
  patch_uuid : JsValue;
  patch_action : JsValue;
  patch_unenrolledRun : JsValue;
  patch_comments : JsValue
}.

Record PostEntitlementArgs : Type := {
  post_user : JsValue;
  post_courseUuid : JsValue;
  post_mode : JsValue;
  post_action : JsValue;
  post_comments : JsValue
}.

Record EnrollmentChangeArgs : Type := {
  change_user : JsValue;
  change_courseID : JsValue;
  change_newMode : JsValue;
  change_oldMode : JsValue;
  change_reason : JsValue
}.

Section Api.

Context {platform : Platform}.

(** [await getAuthenticatedHttpClient().get/patch/post(...)], then
    [const { data } = ...]. *)
Definition send (request : Request) : Async JsValue :=
  fun w =>
    let w' := {| requests := (requests w ++ [request])%list; console := console w |} in
    match remote (requests w) request with
    | Ok data => (Return data, w')
    | Fail status body =>
        (Throw (Failure {| customAttributes :=
                             Some {| httpErrorStatus := status;
                                     httpErrorResponseData := body |};
                           userError := None |}), w')
    end.

Definition http_get (url : string) : Async JsValue :=
  send {| method := GET; url := url; payload := None |}.
Definition http_patch (url : string) (body : JsValue) : Async JsValue :=
  send {| method := PATCH; url := url; payload := Some body |}.
Definition http_post (url : string) (body : JsValue) : Async JsValue :=
  send {| method := POST; url := url; payload := Some body |}.

Definition getEntitlements (username : JsValue) : Async JsValue :=
  data <- http_get (LMS_BASE_URL ++ "/api/entitlements/v1/entitlements/?user="
                      ++ ToString username) ;;
  ret data.

Definition getEnrollments (username : JsValue) : Async JsValue :=
  data <- http_get (LMS_BASE_URL ++ "/support/enrollment/" ++ ToString username) ;;
  ret data.

Definition getUser (userIdentifier : string) : Async JsValue :=
  let url := LMS_BASE_URL ++ "/api/user/v1/accounts" in
  let notFoundErrorText := "We couldn't find a user with the " in
  target <-
    (if matches EMAIL_REGEX userIdentifier then
       ret (url ++ "?email=" ++ userIdentifier,
            notFoundErrorText ++ "email " ++ dquote ++ userIdentifier ++ dquote ++ ".")
     else if matches USERNAME_REGEX userIdentifier then
       ret (url ++ "/" ++ userIdentifier,
            notFoundErrorText ++ "username " ++ dquote ++ userIdentifier ++ dquote ++ ".")
     else
       throw (Error "Invalid Argument!")) ;;
  let '(url, notFoundErrorText) := target in
  try_catch
    (data <- http_get url ;;
     ret (match data with
          | JArr (first :: _) => first
          | _ => data
          end))
    (fun error =>
       with_attributes error (fun e attributes =>
         log_json (httpErrorResponseData attributes) ;;;
         if (httpErrorStatus attributes =? 404)%Z then
           throw (Failure (set_userError e
             {| code := JNull;
                dismissible := true;
                text := notFoundErrorText;
                type := "error";
                topic := "general" |}))
         else
           throw (Failure (set_userError e
             {| code := JNull;
                dismissible := true;
                text := "There was an error loading this user's data. Check the JavaScript console for detailed errors.";
                type := "danger";
                topic := "general" |})))).

Definition getUserVerificationStatus (username : JsValue) : Async JsValue :=
  try_catch
    (data <- http_get (LMS_BASE_URL ++ "/api/user/v1/accounts/" ++ ToString username
                         ++ "/verification_status/") ;;
     ret data)
    (fun error =>
       with_attributes error (fun e attributes =>
         log_json (httpErrorResponseData attributes) ;;;
         if (httpErrorStatus attributes =? 404)%Z then
           ret (JObj [("status", JStr "Not Available");
                      ("expirationDatetime", JStr EmptyString);
                      ("isVerified", JBool false)])
         else
           ret (JObj [("status", JStr "Error, status unknown");
                      ("expirationDatetime", JStr EmptyString);
                      ("isVerified", JBool false)]))).

(** Resolves to an object carrying [userError], or to [undefined]
    ([None]) when the handler falls off its end. *)
Definition getRetirement (username : string) : Async (option ErrorObject) :=
  try_catch
    (data <- http_get (LMS_BASE_URL ++ "/api/user/v1/accounts/" ++ username
                         ++ "/retirement_information/") ;;
     let data := camelCaseObject data in
     requested <- member data "retirementRequestDate" ;;
     let retirementRequestDate := Date_toString requested in
     let errorString :=
       "User with username " ++ username
         ++ " has been retired. The user requested retirement on "
         ++ retirementRequestDate ++ ". " in
     let errorString :=
       if truthy (get data "retirementDate") then
         let retirementDate := Date_toString (get data "retirementDate") in
         errorString ++ "They were retired on " ++ retirementDate
       else
         errorString ++ "Information about their retirement date is not available" in
     let error := {| customAttributes := None; userError := None |} in
     ret (Some (set_userError error
       {| code := JNull;
          dismissible := true;
          text := errorString;
          type := "error";
          topic := "general" |})))
    (fun error =>
       with_attributes error (fun e attributes =>
         if (httpErrorStatus attributes =? 404)%Z then
           ret (Some (set_userError e
             {| code := JNull;
                dismissible := true;
                text := "We couldn't find a user with the username "
                          ++ dquote ++ username ++ dquote ++ ".";
                type := "error";
                topic := "general" |}))
         else
           ret None)).

Definition getAllUserData (userIdentifier : string) : Async AggregateResult :=
  let errors := [] in
  let user := JNull in
  let entitlements := JArr [] in
  let enrollments := JArr [] in
  let verificationStatus := JNull in
  found <-
    try_catch
      (user <- getUser userIdentifier ;;
       ret (errors, user))
      (fun error =>
         retirement <- getRetirement userIdentifier ;;
         pushed <- match retirement with
                   | Some object => ret (userError object)
                   | None => throw TypeError
                   end ;;
         let errors := (errors ++ [pushed])%list in
         match thrown_userError error with
         | Some descriptor => ret ((errors ++ [Some descriptor])%list, user)
         | None => throw error
         end) ;;
  let '(errors, user) := found in
  match user with
  | JNull =>
      ret {| errors := errors; user := user; entitlements := entitlements;
             enrollments := enrollments; verificationStatus := verificationStatus |}
  | _ =>
      username <- member user "username" ;;
      entitlements <- getEntitlements username ;;
      enrollments <- getEnrollments username ;;
      verificationStatus <- getUserVerificationStatus username ;;
      ret {| errors := errors; user := user; entitlements := entitlements;
             enrollments := enrollments; verificationStatus := verificationStatus |}
  end.

Definition getCourseData (courseUUID : JsValue) : Async Reply :=
  try_catch
    (data <- http_get (DISCOVERY_API_BASE_URL ++ "/api/v1/courses/"
                         ++ ToString courseUUID ++ "/") ;;
     ret (Data data))
    (fun error =>
       with_attributes error (fun e attributes =>
         log_json (httpErrorResponseData attributes) ;;;
         if (httpErrorStatus attributes =? 404)%Z then
           let courseError404 :=
             {| code := JNull;
                dismissible := true;
                text := "We couldn't find summary data for this Course "
                          ++ dquote ++ ToString courseUUID ++ dquote ++ ".";
                type := "error";
                topic := "course-summary" |} in
           ret (Errors [courseError404])
         else
           let courseError :=
             {| code := JNull;
                dismissible := true;
                text := "Error finding summary data for this Course "
                          ++ dquote ++ ToString courseUUID ++ dquote ++ ".";
                type := "danger";
                topic := "course-summary" |} in
           ret (Errors [courseError]))).

(** The handler shared, word for word, by the three mutations: the body
    is parsed and logged on a 400 only. *)
Definition submission_failed (topic : string) (error : Thrown) : Async Reply :=
  with_attributes error (fun e attributes =>
    (if (httpErrorStatus attributes =? 400)%Z
     then log_json (httpErrorResponseData attributes)
     else ret tt) ;;;
    ret (Errors
      [{| code := JNull;
          dismissible := true;
          text := "There was an error submitting this entitlement. Check the JavaScript console for detailed errors.";
          type := "danger";
          topic := topic |}])).

Definition patchEntitlement (args : PatchEntitlementArgs) : Async Reply :=
  let uuid := patch_uuid args in
  let action := patch_action args in
  let unenrolledRun := default_null (patch_unenrolledRun args) in
  let comments := default_null (patch_comments args) in
  try_catch
    (data <- http_patch
               (LMS_BASE_URL ++ "/api/entitlements/v1/entitlements/"
                  ++ ToString uuid ++ "/")
               (JObj [("expired_at", JNull);
                      ("support_details",
                       JArr [JObj [("unenrolled_run", unenrolledRun);
                                   ("action", action);
                                   ("comments", comments)]])]) ;;
     ret (Data data))
    (submission_failed "entitlements").

Definition postEntitlement (args : PostEntitlementArgs) : Async Reply :=
  let user := post_user args in
  let courseUuid := post_courseUuid args in
  let mode := post_mode args in
  let action := post_action args in
  let comments := default_null (post_comments args) in
  try_catch
    (data <- http_post
               (LMS_BASE_URL ++ "/api/entitlements/v1/entitlements/")
               (JObj [("course_uuid", courseUuid);
                      ("user", user);
                      ("mode", mode);
                      ("refund_locked", JBool true);
                      ("support_details",
                       JArr [JObj [("action", action);
                                   ("comments", comments)]])]) ;;
     ret (Data data))
    (submission_failed "entitlements").

Definition postEnrollmentChange (args : EnrollmentChangeArgs) : Async Reply :=
  let user := change_user args in
  try_catch
    (data <- http_post
               (LMS_BASE_URL ++ "/support/enrollment/" ++ ToString user)
               (JObj [("course_id", change_courseID args);
                      ("new_mode", change_newMode args);
                      ("old_mode", change_oldMode args);
                      ("reason", change_reason args)]) ;;
     ret (Data data))
    (submission_failed "enrollments").

End Api.

(** ** The requests of each lookup *)

Section Requests.

Context {platform : Platform}.

Definition get_request (url : string) : Request :=
  {| method := GET; url := url; payload := None |}.

(** [?email=] for an e-mail address, a path segment otherwise. *)
Definition account_request (userIdentifier : string) : Request :=
  get_request
    ((LMS_BASE_URL ++ "/api/user/v1/accounts")
       ++ (if matches EMAIL_REGEX userIdentifier
           then "?email=" ++ userIdentifier
           else "/" ++ userIdentifier)).

Definition entitlements_request (username : string) : Request :=
  get_request (LMS_BASE_URL ++ "/api/entitlements/v1/entitlements/?user=" ++ username).

Definition enrollments_request (username : string) : Request :=
  get_request (LMS_BASE_URL ++ "/support/enrollment/" ++ username).

Definition verification_request (username : string) : Request :=
  get_request (LMS_BASE_URL ++ "/api/user/v1/accounts/" ++ username
                 ++ "/verification_status/").

Definition retirement_request (username : string) : Request :=
  get_request (LMS_BASE_URL ++ "/api/user/v1/accounts/" ++ username
                 ++ "/retirement_information/").

(** The query of an identifier that is an e-mail address. *)
Definition email_request (email : string) : Request :=
  get_request ((LMS_BASE_URL ++ "/api/user/v1/accounts") ++ "?email=" ++ email).

Definition patch_entitlement_request (args : PatchEntitlementArgs) : Request :=
  {| method := PATCH;
     url := LMS_BASE_URL ++ "/api/entitlements/v1/entitlements/"
              ++ ToString (patch_uuid args) ++ "/";
     payload :=
       Some (JObj [("expired_at", JNull);
                   ("support_details",
                    JArr [JObj [("unenrolled_run", default_null (patch_unenrolledRun args));
                                ("action", patch_action args);
                                ("comments", default_null (patch_comments args))]])]) |}.

Definition post_entitlement_request (args : PostEntitlementArgs) : Request :=
  {| method := POST;
     url := LMS_BASE_URL ++ "/api/entitlements/v1/entitlements/";
     payload :=
       Some (JObj [("course_uuid", post_courseUuid args);
                   ("user", post_user args);
                   ("mode", post_mode args);
                   ("refund_locked", JBool true);
                   ("support_details",
                    JArr [JObj [("action", post_action args);
                                ("comments", default_null (post_comments args))]])]) |}.

Definition enrollment_change_request (args : EnrollmentChangeArgs) : Request :=
  {| method := POST;
     url := LMS_BASE_URL ++ "/support/enrollment/" ++ ToString (change_user args);
     payload :=
       Some (JObj [("course_id", change_courseID args);
                   ("new_mode", change_newMode args);
                   ("old_mode", change_oldMode args);
                   ("reason", change_reason args)]) |}.

End Requests.

(** The world after one more request. *)
Definition sent (w : World) (request : Request) : World :=
  {| requests := (requests w ++ [request])%list; console := console w |}.

(** The world after one more console line. *)
Definition logged (w : World) (line : string) : World :=
  {| requests := requests w; console := (console w ++ [line])%list |}.

(** The failure the HTTP client raises for a response [status], [body]. *)
Definition http_failure (status : Z) (body : string) : ErrorObject :=
  {| customAttributes := Some {| httpErrorStatus := status;
                                 httpErrorResponseData := body |};
     userError := None |}.

(** The status a thrown value is tagged with, if any. *)
Definition thrown_status (error : Thrown) : option Z :=
  match error with
  | Failure e => option_map httpErrorStatus (customAttributes e)
  | _ => None
  end.

(** The invariant of every descriptor the module builds. *)
Definition well_formed (d : ErrorDescriptor) : bool :=
  match code d with JNull => true | _ => false end
  && Bool.eqb (dismissible d) true
  && (String.eqb (type d) "error" || String.eqb (type d) "danger")
  && (String.eqb (topic d) "general" || String.eqb (topic d) "entitlements"
      || String.eqb (topic d) "enrollments" || String.eqb (topic d) "course-summary").

(** The same invariant, as the data model states it. *)
Definition WellFormed (d : ErrorDescriptor) : Prop :=
  code d = JNull /\
  dismissible d = true /\
  (type d = "error" \/ type d = "danger") /\
  (topic d = "general" \/ topic d = "entitlements" \/ topic d = "enrollments"
   \/ topic d = "course-summary").

(** The descriptors an outcome carries: attached to a raised failure, ... *)
Definition raised_descriptors {A} (outcome : Outcome A) : list ErrorDescriptor :=
  match outcome with
  | Throw error => match thrown_userError error with Some d => [d] | None => [] end
  | Return _ => []
  end.

(** ... attached to the object [getRetirement] resolves to, ... *)
Definition retirement_descriptors (outcome : Outcome (option ErrorObject))
  : list ErrorDescriptor :=
  match outcome with
  | Return (Some {| userError := Some d |}) => [d]
  | _ => raised_descriptors outcome
  end.

(** ... or listed in the [errors] of a reply. *)
Definition reply_descriptors (outcome : Outcome Reply) : list ErrorDescriptor :=
  match outcome with
  | Return (Errors descriptors) => descriptors
  | _ => raised_descriptors outcome
  end.

(** ** The descriptors of the user lookup *)

(** The text of the not-found descriptor names the identifier and its form. *)
Definition not_found_text (userIdentifier : string) : string :=
  "We couldn't find a user with the "
    ++ (if matches EMAIL_REGEX userIdentifier then "email " else "username ")
    ++ dquote ++ userIdentifier ++ dquote ++ ".".

Definition not_found (userIdentifier : string) : ErrorDescriptor :=
  {| code := JNull;
     dismissible := true;
     text := not_found_text userIdentifier;
     type := "error";
     topic := "general" |}.

Definition loading_failed : ErrorDescriptor :=
  {| code := JNull;
     dismissible := true;
     text := "There was an error loading this user's data. Check the JavaScript console for detailed errors.";
     type := "danger";
     topic := "general" |}.

Definition submission_error (topic : string) : ErrorDescriptor :=
  {| code := JNull;
     dismissible := true;
     text := "There was an error submitting this entitlement. Check the JavaScript console for detailed errors.";
     type := "danger";
     topic := topic |}.

(** The descriptor of [getRetirement] for an unknown username. *)
Definition retirement_not_found (username : string) : ErrorDescriptor :=
  {| code := JNull;
     dismissible := true;
     text := "We couldn't find a user with the username "
               ++ dquote ++ username ++ dquote ++ ".";
     type := "error";
     topic := "general" |}.

(** The two sentinels of the verification-status lookup. *)
Definition verification_fallback (status : string) : JsValue :=
  JObj [("status", JStr status);
        ("expirationDatetime", JStr EmptyString);
        ("isVerified", JBool false)].

(** [Array.isArray(data) && data.length > 0] *)
Definition nonempty_array (data : JsValue) : bool :=
  match data with
  | JArr (_ :: _) => true
  | _ => false
  end.

(** The defaults of the data fields of an [AggregateResult]. *)
Definition only_errors (errors : list (option ErrorDescriptor)) : AggregateResult :=
  {| errors := errors;
     user := JNull;
     entitlements := JArr [];
     enrollments := JArr [];
     verificationStatus := JNull |}.

(** [text] occurs in [whole]. *)
Definition contains (whole text : string) : Prop :=
  exists before after, whole = before ++ text ++ after.

(** ** Scenarios

    Remote services given by a table from URLs to responses, used to run
    the wrappers on concrete inputs. *)

Module Scenario.

Fixpoint answer (table : list (string * Response)) (otherwise : Response)
    (url : string) : Response :=
  match table with
  | [] => otherwise
  | (u, response) :: rest =>
      if String.eqb u url then response else answer rest otherwise url
  end.

(** A platform whose remote service answers by [table], and with 404 and
    an empty JSON object for every other URL. *)
Definition service (table : list (string * Response)) : Platform :=
  {| LMS_BASE_URL := "https://lms.test";
     DISCOVERY_API_BASE_URL := "https://discovery.test";
     camelCaseObject := fun data => data;
     Date_toString := ToString;
     remote := fun _ request => answer table (Fail 404 "{}") (url request) |}.

Definition start : World := {| requests := []; console := [] |}.

Definition alice : JsValue := JObj [("username", JStr "alice")].

(** Nobody is known, and the retirement endpoint is down. *)
Definition retirement_down : Platform :=
  service
    [("https://lms.test/api/user/v1/accounts/alice/retirement_information/",
      Fail 500 "{}");
     ("https://lms.test/api/user/v1/accounts/bob/retirement_information/",
      Fail 503 "{}");
     ("https://lms.test/api/user/v1/accounts/bob", Fail 500 "{}")].

(** Nobody is known at all. *)
Definition nobody : Platform := service [].

(** Carol asked for her retirement, which is not completed yet. *)
Definition retired : Platform :=
  service
    [("https://lms.test/api/user/v1/accounts/carol/retirement_information/",
      Ok (JObj [("retirementRequestDate", JStr "2020-01-02");
                ("retirementDate", JNull)]))].

(** The account endpoint answers an e-mail filter with a collection. *)
Definition collections : Platform :=
  service
    [("https://lms.test/api/user/v1/accounts?email=alice@example.com", Ok (JArr [alice]));
     ("https://lms.test/api/user/v1/accounts?email=nobody@example.com", Ok (JArr []))].

(** Alice and her records. *)
Definition healthy : Platform :=
  service
    [("https://lms.test/api/user/v1/accounts/alice", Ok alice);
     ("https://lms.test/api/entitlements/v1/entitlements/?user=alice",
      Ok (JObj [("results", JArr [])]));
     ("https://lms.test/support/enrollment/alice", Ok (JArr [JObj [("mode", JStr "audit")]]));
     ("https://lms.test/api/user/v1/accounts/alice/verification_status/",
      Ok (JObj [("status", JStr "approved"); ("is_verified", JBool true)]))].

(** Failures whose raw body is not JSON text. *)
Definition html_errors : Platform :=
  service
    [("https://lms.test/api/user/v1/accounts?email=alice@example.com",
      Fail 404 "<Response is HTML>");
     ("https://lms.test/api/user/v1/accounts/alice/verification_status/",
      Fail 500 "<Response is HTML>");
     ("https://lms.test/api/entitlements/v1/entitlements/e1/",
      Fail 400 "<Response is HTML>");
     ("https://lms.test/api/entitlements/v1/entitlements/",
      Fail 400 "<Response is HTML>")].

(** Failures with a JSON body. *)
Definition json_errors : Platform :=
  service
    [("https://lms.test/api/user/v1/accounts/alice/verification_status/",
      Fail 500 "{}");
     ("https://lms.test/api/entitlements/v1/entitlements/e1/", Fail 400 "{}");
     ("https://lms.test/api/entitlements/v1/entitlements/", Fail 502 "<html>");
     ("https://lms.test/support/enrollment/alice", Fail 400 "[]")].

Definition patch_e1 : PatchEntitlementArgs :=
  {| patch_uuid := JStr "e1"; patch_action := JStr "REISSUE";
     patch_unenrolledRun := JUndefined; patch_comments := JStr "reissued" |}.

Definition post_alice : PostEntitlementArgs :=
  {| post_user := JStr "alice"; post_courseUuid := JStr "c1";
     post_mode := JStr "verified"; post_action := JStr "CREATE";
     post_comments := JUndefined |}.

Definition change_alice : EnrollmentChangeArgs :=
  {| change_user := JStr "alice"; change_courseID := JStr "course-v1:a+b+c";
     change_newMode := JStr "verified"; change_oldMode := JStr "audit";
     change_reason := JStr "upgrade" |}.

(** The failure and the worlds of the lookup of "alice" when nobody is
    known. *)
Definition unknown_alice : Thrown :=
  Failure (set_userError (http_failure 404 "{}") (not_found "alice")).

Definition unretired_alice : ErrorObject :=
  set_userError (http_failure 404 "{}") (retirement_not_found "alice").

Definition after_lookup : World :=
  logged (sent start (account_request (platform := nobody) "alice")) "{}".

Definition after_fallback : World :=
  sent after_lookup (retirement_request (platform := nobody) "alice").

End Scenario.

(** ** The language of a pattern

    What a regular expression denotes, to state which identifiers the two
    patterns accept independently of how [matches] computes. *)

Inductive Language : regex -> string -> Prop :=
| LEmpty : Language Empty EmptyString
| LChr (c : ascii) : Language (Chr c) (String c EmptyString)
| LClass (p : ascii -> bool) (c : ascii) :
    p c = true -> Language (Class p) (String c EmptyString)
| LSeq (r1 r2 : regex) (s1 s2 : string) :
    Language r1 s1 -> Language r2 s2 -> Language (Seq r1 r2) (s1 ++ s2)
| LAltL (r1 r2 : regex) (s : string) : Language r1 s -> Language (Alt r1 r2) s
| LAltR (r1 r2 : regex) (s : string) : Language r2 s -> Language (Alt r1 r2) s
| LStarNil (r : regex) : Language (Star r) EmptyString
| LStarApp (r : regex) (s1 s2 : string) :
    Language r s1 -> Language (Star r) s2 -> Language (Star r) (s1 ++ s2).

(** Every character of [s] satisfies [p]. *)
Definition all_chars (p : ascii -> bool) (s : string) : bool :=
  forallb p (list_ascii_of_string s).

(** The character classes of the two patterns. *)
Definition email_local_char (c : ascii) : bool :=
  alpha c || digit c || one_of "._%+-" c.
Definition email_domain_char (c : ascii) : bool :=
  alpha c || digit c || one_of ".-" c.
Definition username_char (c : ascii) : bool :=
  word c || one_of ".@_+-" c.

(** A list of at most [n] requests, all of them [GET] without a body. *)
Definition gets_at_most (n : nat) (new : list Request) : Prop :=
  (length new <= n)%nat /\ Forall (fun r => method r = GET /\ payload r = None) new.

(** ** The license card

    The data of [LicenseCard]: the rows of its table and what it shows.
    [formatDate] comes from the utilities of the application; the badge
    variant and the styling are left out. *)

Record LicenseRow : Type := {
  assignedDate : JsValue;
  activationDate : JsValue;
  revokedDate : JsValue;
  lastRemindDate : JsValue;
  activationLink : JsValue   (* the target and the text of the link *)
}.

(** What the component returns: the card, or the empty fragment. *)
Inductive Rendered : Type :=
| Fragment
| Card (title status planExpiration : JsValue) (rows : list LicenseRow).

Section LicenseCard.

Variable formatDate : JsValue -> JsValue.

(** [licenseRecord == null] holds of [null] and of [undefined]. *)
Definition tableData (licenseRecord : JsValue) : list LicenseRow :=
  match licenseRecord with
  | JNull | JUndefined => []
  | _ =>
      map (fun record =>
             {| assignedDate := formatDate (get record "assignedDate");
                activationDate := formatDate (get record "activationDate");
                revokedDate := formatDate (get record "revokedDate");
                lastRemindDate := formatDate (get record "lastRemindDate");
                activationLink := get record "activationLink" |})
          [licenseRecord]
  end.

(** [tableData && tableData.length ? <Card>...</Card> : <></>] *)
Definition LicenseCard (licenseRecord : JsValue) : Rendered :=
  let tableData := tableData licenseRecord in
  match tableData with
  | [] => Fragment
  | _ =>
      Card (get licenseRecord "subscriptionPlanTitle")
           (get licenseRecord "status")
           (formatDate (get licenseRecord "subscriptionPlanExpirationDate"))
           tableData
  end.

End LicenseCard.

(** ** More scenarios *)

Module Cases.

Definition bob : JsValue := JObj [("username", JStr "bob")].

Definition nameless : JsValue := JObj [("email", JStr "n@example.com")].

(** One remote service with an account of every kind. *)
Definition mixed : Platform :=
  Scenario.service
    [("https://lms.test/api/user/v1/accounts/ghost", Ok JNull);
     ("https://lms.test/api/user/v1/accounts/nameless", Ok nameless);
     ("https://lms.test/api/entitlements/v1/entitlements/?user=undefined", Ok (JArr []));
     ("https://lms.test/support/enrollment/undefined", Ok (JArr []));
     ("https://lms.test/api/user/v1/accounts/alice", Ok Scenario.alice);
     ("https://lms.test/api/entitlements/v1/entitlements/?user=alice", Fail 500 "oops");
     ("https://lms.test/api/user/v1/accounts/bob", Ok bob);
     ("https://lms.test/api/entitlements/v1/entitlements/?user=bob", Ok (JArr []));
     ("https://lms.test/support/enrollment/bob", Fail 403 "{}");
     ("https://lms.test/api/user/v1/accounts/dave/retirement_information/", Ok JNull);
     ("https://lms.test/api/user/v1/accounts/erin/retirement_information/",
      Fail 404 "<Response is HTML>");
     ("https://discovery.test/api/v1/courses/c1/", Fail 500 "[]");
     ("https://lms.test/support/enrollment/carol", Fail 400 "<Response is HTML>");
     ("https://lms.test/support/enrollment/alice", Fail 409 "<Response is HTML>")].

Definition change_carol : EnrollmentChangeArgs :=
  {| change_user := JStr "carol"; change_courseID := JStr "course-v1:a+b+c";
     change_newMode := JStr "verified"; change_oldMode := JStr "audit";
     change_reason := JStr "upgrade" |}.

Definition license : JsValue :=
  JObj [("status", JStr "activated");
        ("assignedDate", JStr "2021-01-01");
        ("subscriptionPlanTitle", JStr "Plan")].

End Cases.

(** * Properties *)

(** Unfolds the monad and the HTTP client. *)
Ltac unfold_async :=
  unfold bind, ret, throw, try_catch, http_get, http_patch, http_post, send,
    with_attributes, log_json, member in *.

(** Splits on the next test the computation branches on. *)
Ltac split_next :=
  match goal with
  | |- context [match remote ?h ?r with _ => _ end] => destruct (remote h r) eqn:?
  | |- context [if Json.parses ?t then _ else _] => destruct (Json.parses t) eqn:?
  | |- context [if (?a =? ?b)%Z then _ else _] => destruct (Z.eqb_spec a b)
  | |- context [if matches ?r ?s then _ else _] => destruct (matches r s) eqn:?
  end.

(** Reduces the projections and the matches on known constructors. *)
Ltac async_simpl :=
  cbn [customAttributes httpErrorStatus httpErrorResponseData userError
       requests console fst snd set_userError thrown_userError];
  cbv beta iota zeta.

Ltac async_cases := repeat (async_simpl; first [reflexivity | split_next]).

Section UserLookup.

Context {platform : Platform}.

(** An identifier that matches neither pattern is rejected on the spot. *)
Lemma getUser_invalid (userIdentifier : string) (w : World) :
  matches EMAIL_REGEX userIdentifier = false ->
  matches USERNAME_REGEX userIdentifier = false ->
  getUser userIdentifier w = (Throw (Error "Invalid Argument!"), w).
Proof.
  intros Hemail Husername. unfold getUser. unfold_async.
  rewrite Hemail, Husername. reflexivity.
Qed.

(** What the lookup of a well-formed identifier does, response by
    response. *)
Lemma getUser_valid (userIdentifier : string) (w : World) :
  matches EMAIL_REGEX userIdentifier || matches USERNAME_REGEX userIdentifier = true ->
  getUser userIdentifier w =
    let w' := sent w (account_request userIdentifier) in
    match remote (requests w) (account_request userIdentifier) with
    | Ok data =>
        (Return (match data with JArr (first :: _) => first | _ => data end), w')
    | Fail status body =>
        if Json.parses body then
          (Throw (Failure (set_userError (http_failure status body)
                             (if (status =? 404)%Z
                              then not_found userIdentifier
                              else loading_failed))),
           logged w' body)
        else (Throw SyntaxError, w')
    end.
Proof.
  intros Hvalid. unfold getUser, account_request, get_request, not_found,
    not_found_text, loading_failed, sent, logged, http_failure. unfold_async.
  destruct (matches EMAIL_REGEX userIdentifier) eqn:Hemail.
  - async_cases.
  - cbn in Hvalid. rewrite Hvalid. async_cases.
Qed.

End UserLookup.

Section SingleLookups.

Context {platform : Platform}.

Lemma getEntitlements_run (username : JsValue) (w : World) :
  getEntitlements username w =
    let w' := sent w (entitlements_request (ToString username)) in
    match remote (requests w) (entitlements_request (ToString username)) with
    | Ok data => (Return data, w')
    | Fail status body => (Throw (Failure (http_failure status body)), w')
    end.
Proof.
  unfold getEntitlements, entitlements_request, get_request, sent, http_failure.
  unfold_async. async_cases.
Qed.

Lemma getEnrollments_run (username : JsValue) (w : World) :
  getEnrollments username w =
    let w' := sent w (enrollments_request (ToString username)) in
    match remote (requests w) (enrollments_request (ToString username)) with
    | Ok data => (Return data, w')
    | Fail status body => (Throw (Failure (http_failure status body)), w')
    end.
Proof.
  unfold getEnrollments, enrollments_request, get_request, sent, http_failure.
  unfold_async. async_cases.
Qed.

(** The verification status degrades to a sentinel, after the raw body
    of the failure has been parsed for the console. *)
Lemma getUserVerificationStatus_run (username : JsValue) (w : World) :
  getUserVerificationStatus username w =
    let w' := sent w (verification_request (ToString username)) in
    match remote (requests w) (verification_request (ToString username)) with
    | Ok data => (Return data, w')
    | Fail status body =>
        if Json.parses body then
          (Return (verification_fallback
                     (if (status =? 404)%Z then "Not Available"
                      else "Error, status unknown")),
           logged w' body)
        else (Throw SyntaxError, w')
    end.
Proof.
  unfold getUserVerificationStatus, verification_request, get_request, sent,
    logged, verification_fallback. unfold_async. async_cases.
Qed.

(** A failed retirement lookup: a tagged object on 404, [undefined]
    on every other status. *)
Lemma getRetirement_failed (username : string) (w : World) (status : Z) (body : string) :
  remote (requests w) (retirement_request username) = Fail status body ->
  getRetirement username w =
    (Return (if (status =? 404)%Z
             then Some (set_userError (http_failure status body)
                          (retirement_not_found username))
             else None),
     sent w (retirement_request username)).
Proof.
  unfold getRetirement, retirement_request, get_request, sent, http_failure,
    retirement_not_found. unfold_async.
  intros Hfail. rewrite Hfail. async_cases.
Qed.

(** The retirement lookup sends its one request whatever comes back. *)
Lemma getRetirement_sends (username : string) (w : World) :
  snd (getRetirement username w) = sent w (retirement_request username).
Proof.
  unfold getRetirement, retirement_request, get_request, sent. unfold_async.
  destruct (remote _ _) as [data | status body]; async_simpl.
  - destruct (camelCaseObject data); reflexivity.
  - destruct (status =? 404)%Z; reflexivity.
Qed.

(** Whatever object the retirement lookup resolves to carries a
    well-formed descriptor. *)
Lemma getRetirement_descriptor (username : string) (w w' : World) (object : ErrorObject) :
  getRetirement username w = (Return (Some object), w') ->
  exists retired, userError object = Some retired /\ well_formed retired = true.
Proof.
  unfold getRetirement. unfold_async.
  destruct (remote _ _) as [data | status body]; async_simpl.
  - destruct (camelCaseObject data); intros H; inversion H; subst;
      eexists; split; reflexivity.
  - destruct (status =? 404)%Z; intros H; inversion H; subst.
    eexists; split; reflexivity.
Qed.

(** The handler of the mutations: nothing is parsed unless the status is
    400. *)
Lemma submission_failed_run (topic : string) (w : World) (status : Z) (body : string) :
  submission_failed topic (Failure (http_failure status body)) w =
    if (status =? 400)%Z then
      if Json.parses body
      then (Return (Errors [submission_error topic]), logged w body)
      else (Throw SyntaxError, w)
    else (Return (Errors [submission_error topic]), w).
Proof.
  unfold submission_failed, http_failure, submission_error, logged.
  unfold_async. async_cases.
Qed.

End SingleLookups.

(** ** The aggregated lookup when the user lookup fails *)

Section Fallback.

Context {platform : Platform}.

(** A failure of the user lookup that is tagged 404 carries the not-found
    descriptor of its identifier. *)
Lemma getUser_tagged_404 (userIdentifier : string) (w w1 : World) (error : Thrown) :
  getUser userIdentifier w = (Throw error, w1) ->
  thrown_status error = Some 404%Z ->
  thrown_userError error = Some (not_found userIdentifier).
Proof.
  intros Hu Hs.
  destruct (matches EMAIL_REGEX userIdentifier || matches USERNAME_REGEX userIdentifier)
    eqn:Hvalid.
  - rewrite (getUser_valid _ _ Hvalid) in Hu. cbv zeta in Hu.
    destruct (remote _ _) as [data | status body]; [discriminate |].
    destruct (Json.parses body); inversion Hu; subst; [| discriminate].
    cbn in Hs. inversion Hs; subst. reflexivity.
  - apply orb_false_elim in Hvalid. destruct Hvalid as [He Hn].
    rewrite (getUser_invalid _ _ He Hn) in Hu. inversion Hu; subst. discriminate.
Qed.

(** The catch block of [getAllUserData], once the retirement lookup has
    resolved to an object. *)
Lemma getAllUserData_caught (userIdentifier : string) (w w1 w2 : World)
    (error : Thrown) (object : ErrorObject) :
  getUser userIdentifier w = (Throw error, w1) ->
  getRetirement userIdentifier w1 = (Return (Some object), w2) ->
  getAllUserData userIdentifier w =
    (match thrown_userError error with
     | Some descriptor => Return (only_errors [userError object; Some descriptor])
     | None => Throw error
     end, w2).
Proof.
  intros Hu Hr. unfold getAllUserData, only_errors. unfold_async.
  rewrite Hu, Hr. destruct (thrown_userError error); reflexivity.
Qed.

(** Once the user lookup has failed, the only further request of the
    workflow is the retirement lookup. *)
Lemma getAllUserData_retirement_sent (userIdentifier : string) (w w1 : World)
    (error : Thrown) :
  getUser userIdentifier w = (Throw error, w1) ->
  snd (getAllUserData userIdentifier w) = sent w1 (retirement_request userIdentifier).
Proof.
  intros Hu. rewrite <- getRetirement_sends.
  unfold getAllUserData. unfold_async. rewrite Hu.
  destruct (getRetirement userIdentifier w1) as [[[object |] | thrown] w2];
    try reflexivity.
  destruct (thrown_userError error); reflexivity.
Qed.

End Fallback.

(** C1, as amended.  For every user identifier whose user lookup raises a
    failure tagged 404, and whose retirement lookup resolves to an object,
    [getAllUserData] returns a result whose [errors] holds exactly two
    descriptors, the one of the retirement lookup and then the not-found
    descriptor of the identifier, and whose data fields are at their
    defaults. *)
Theorem getAllUserData_not_found {platform : Platform}
    (userIdentifier : string) (w w1 w2 : World) (error : Thrown) (object : ErrorObject) :
  getUser userIdentifier w = (Throw error, w1) ->
  thrown_status error = Some 404%Z ->
  getRetirement userIdentifier w1 = (Return (Some object), w2) ->
  exists retired,
    userError object = Some retired /\
    thrown_userError error = Some (not_found userIdentifier) /\
    getAllUserData userIdentifier w =
      (Return {| errors := [Some retired; Some (not_found userIdentifier)];
                 user := JNull;
                 entitlements := JArr [];
                 enrollments := JArr [];
                 verificationStatus := JNull |}, w2).
Proof.
  intros Hu Hs Hr.
  destruct (getRetirement_descriptor _ _ _ _ Hr) as [retired [Hretired _]].
  pose proof (getUser_tagged_404 _ _ _ _ Hu Hs) as Hfound.
  exists retired. repeat split; try assumption.
  rewrite (getAllUserData_caught _ _ _ _ _ _ Hu Hr), Hfound, Hretired.
  reflexivity.
Qed.

(** Nobody is known: the two lookups of "alice" both end in 404. *)
Lemma getAllUserData_not_found_witness :
  getUser (platform := Scenario.nobody) "alice" Scenario.start
    = (Throw Scenario.unknown_alice, Scenario.after_lookup) /\
  thrown_status Scenario.unknown_alice = Some 404%Z /\
  getRetirement (platform := Scenario.nobody) "alice" Scenario.after_lookup
    = (Return (Some Scenario.unretired_alice), Scenario.after_fallback) /\
  getAllUserData (platform := Scenario.nobody) "alice" Scenario.start =
    (Return (only_errors [Some (retirement_not_found "alice"); Some (not_found "alice")]),
     Scenario.after_fallback).
Proof.
  assert (Hu : getUser (platform := Scenario.nobody) "alice" Scenario.start
               = (Throw Scenario.unknown_alice, Scenario.after_lookup)) by reflexivity.
  assert (Hs : thrown_status Scenario.unknown_alice = Some 404%Z) by reflexivity.
  assert (Hr : getRetirement (platform := Scenario.nobody) "alice" Scenario.after_lookup
               = (Return (Some Scenario.unretired_alice), Scenario.after_fallback))
    by reflexivity.
  split; [exact Hu | split; [exact Hs | split; [exact Hr |]]].
  destruct (getAllUserData_not_found "alice" _ _ _ _ _ Hu Hs Hr)
    as [retired [Hretired [_ Hall]]].
  rewrite Hall. inversion Hretired. reflexivity.
Defined.

(** A retired user: the first descriptor tells of the retirement. *)
Example getAllUserData_retired :
  fst (getAllUserData (platform := Scenario.retired) "carol" Scenario.start)
  = Return (only_errors
      [Some {| code := JNull;
               dismissible := true;
               text := "User with username carol has been retired. The user requested retirement on 2020-01-02. Information about their retirement date is not available";
               type := "error";
               topic := "general" |};
       Some (not_found "carol")]).
Proof. reflexivity. Qed.

(** C1 as first stated fails: the user lookup of "alice" ends in 404, the
    retirement endpoint answers 500, and the workflow raises a [TypeError]
    where it should return. *)
Lemma getAllUserData_not_found_without_retirement :
  (exists error w1,
     getUser (platform := Scenario.retirement_down) "alice" Scenario.start = (Throw error, w1)
     /\ thrown_status error = Some 404%Z)
  /\ fst (getAllUserData (platform := Scenario.retirement_down) "alice" Scenario.start)
     = Throw TypeError
  /\ ~ (exists result,
          fst (getAllUserData (platform := Scenario.retirement_down) "alice" Scenario.start)
          = Return result).
Proof.
  split; [| split].
  - eexists. eexists. split; reflexivity.
  - reflexivity.
  - intros [result H]. vm_compute in H. discriminate.
Qed.

(** C2, as amended.  Whenever the user lookup inside [getAllUserData]
    fails, the retirement lookup is sent, whatever the failure; and when that
    lookup resolves to an object, its descriptor is appended to [errors],
    after which the descriptor of the original failure is appended too and
    the workflow returns, or, when the original failure carries no
    descriptor, that failure is raised again and no result is returned. *)
Theorem getAllUserData_fallback {platform : Platform}
    (userIdentifier : string) (w w1 : World) (error : Thrown) :
  getUser userIdentifier w = (Throw error, w1) ->
  snd (getAllUserData userIdentifier w) = sent w1 (retirement_request userIdentifier) /\
  forall (object : ErrorObject) (w2 : World),
    getRetirement userIdentifier w1 = (Return (Some object), w2) ->
    exists retired,
      userError object = Some retired /\
      fst (getAllUserData userIdentifier w) =
        match thrown_userError error with
        | Some descriptor => Return (only_errors [Some retired; Some descriptor])
        | None => Throw error
        end.
Proof.
  intros Hu. split.
  - exact (getAllUserData_retirement_sent _ _ _ _ Hu).
  - intros object w2 Hr.
    destruct (getRetirement_descriptor _ _ _ _ Hr) as [retired [Hretired _]].
    exists retired. split; [exact Hretired |].
    rewrite (getAllUserData_caught _ _ _ _ _ _ Hu Hr), Hretired. reflexivity.
Qed.

(** An identifier that is rejected before any request: the retirement
    lookup is sent all the same, and the rejection is raised again. *)
Lemma getAllUserData_fallback_witness :
  getUser (platform := Scenario.nobody) "bad name" Scenario.start
    = (Throw (Error "Invalid Argument!"), Scenario.start) /\
  snd (getAllUserData (platform := Scenario.nobody) "bad name" Scenario.start)
    = sent Scenario.start (retirement_request (platform := Scenario.nobody) "bad name") /\
  fst (getAllUserData (platform := Scenario.nobody) "bad name" Scenario.start)
    = Throw (Error "Invalid Argument!").
Proof.
  assert (Hu : getUser (platform := Scenario.nobody) "bad name" Scenario.start
               = (Throw (Error "Invalid Argument!"), Scenario.start)) by reflexivity.
  destruct (getAllUserData_fallback "bad name" _ _ _ Hu) as [Hsent Hcaught].
  split; [exact Hu | split; [exact Hsent |]].
  destruct (Hcaught
              (set_userError (http_failure 404 "{}") (retirement_not_found "bad name"))
              (sent Scenario.start (retirement_request (platform := Scenario.nobody) "bad name"))
              eq_refl) as [retired [_ Hall]].
  rewrite Hall. reflexivity.
Defined.

(** C2 as first stated fails: the lookup of "bob" fails with a descriptor
    (status 500), the retirement endpoint answers 503, and the workflow
    raises a [TypeError] where it should append and return. *)
Lemma getAllUserData_fallback_without_descriptor :
  (exists error w1 descriptor,
     getUser (platform := Scenario.retirement_down) "bob" Scenario.start = (Throw error, w1)
     /\ thrown_userError error = Some descriptor)
  /\ fst (getAllUserData (platform := Scenario.retirement_down) "bob" Scenario.start)
     = Throw TypeError
  /\ ~ (exists result,
          fst (getAllUserData (platform := Scenario.retirement_down) "bob" Scenario.start)
          = Return result).
Proof.
  split; [| split].
  - eexists. eexists. eexists. split; reflexivity.
  - reflexivity.
  - intros [result H]. vm_compute in H. discriminate.
Qed.

(** C3, on the code.  When the retirement-record fetch fails with a status
    other than 404, [getRetirement] raises nothing: the handler falls off its
    end and the function resolves to [undefined]. *)
Theorem getRetirement_swallows_failure {platform : Platform}
    (username : string) (w : World) (status : Z) (body : string) :
  remote (requests w) (retirement_request username) = Fail status body ->
  status <> 404%Z ->
  getRetirement username w = (Return None, sent w (retirement_request username)).
Proof.
  intros Hfail Hstatus. rewrite (getRetirement_failed _ _ _ _ Hfail).
  destruct (Z.eqb_spec status 404); [contradiction | reflexivity].
Qed.

(** The retirement endpoint answers 500 for "alice". *)
Lemma getRetirement_swallows_failure_witness :
  remote (Platform := Scenario.retirement_down) (requests Scenario.start)
    (retirement_request (platform := Scenario.retirement_down) "alice") = Fail 500 "{}" /\
  500%Z <> 404%Z /\
  getRetirement (platform := Scenario.retirement_down) "alice" Scenario.start
    = (Return None,
       sent Scenario.start (retirement_request (platform := Scenario.retirement_down) "alice")).
Proof.
  split; [reflexivity | split; [lia |]].
  apply (getRetirement_swallows_failure (platform := Scenario.retirement_down)
           "alice" Scenario.start 500 "{}"); [reflexivity | lia].
Defined.

(** ** The user lookup *)

(** C4, as amended.  For every successful response payload of the account
    endpoint, [getUser] returns the first element of the payload whenever
    the payload is a non-empty array, and the whole payload unchanged
    whenever it is not: an empty array is returned as it is. *)
Theorem getUser_unwraps_collection {platform : Platform}
    (userIdentifier : string) (w : World) (data : JsValue) :
  matches EMAIL_REGEX userIdentifier || matches USERNAME_REGEX userIdentifier = true ->
  remote (requests w) (account_request userIdentifier) = Ok data ->
  (forall first rest, data = JArr (first :: rest) ->
     fst (getUser userIdentifier w) = Return first) /\
  (nonempty_array data = false -> fst (getUser userIdentifier w) = Return data).
Proof.
  intros Hvalid Hok. rewrite (getUser_valid _ _ Hvalid), Hok. cbv zeta. split.
  - intros first rest ->. reflexivity.
  - destruct data as [ | | | | | [| first rest] | ]; intros Hempty;
      try reflexivity; discriminate.
Qed.

(** A collection of one account, and an empty collection. *)
Lemma getUser_unwraps_collection_witness :
  (matches EMAIL_REGEX "alice@example.com" || matches USERNAME_REGEX "alice@example.com" = true /\
   remote (Platform := Scenario.collections) (requests Scenario.start)
     (account_request (platform := Scenario.collections) "alice@example.com")
     = Ok (JArr [Scenario.alice]) /\
   fst (getUser (platform := Scenario.collections) "alice@example.com" Scenario.start)
     = Return Scenario.alice) /\
  (matches EMAIL_REGEX "nobody@example.com" || matches USERNAME_REGEX "nobody@example.com" = true /\
   remote (Platform := Scenario.collections) (requests Scenario.start)
     (account_request (platform := Scenario.collections) "nobody@example.com")
     = Ok (JArr []) /\
   fst (getUser (platform := Scenario.collections) "nobody@example.com" Scenario.start)
     = Return (JArr [])).
Proof.
  split; (split; [reflexivity | split; [reflexivity |]]).
  - apply (proj1 (getUser_unwraps_collection (platform := Scenario.collections)
                    "alice@example.com" Scenario.start (JArr [Scenario.alice])
                    eq_refl eq_refl) Scenario.alice []).
    reflexivity.
  - apply (proj2 (getUser_unwraps_collection (platform := Scenario.collections)
                    "nobody@example.com" Scenario.start (JArr [])
                    eq_refl eq_refl)).
    reflexivity.
Defined.

(** C4 as first stated fails: the account endpoint answers the e-mail filter
    with an empty array, which has no first element (its [data[0]] is
    [undefined]), and [getUser] returns the array. *)
Lemma getUser_empty_collection :
  remote (Platform := Scenario.collections) (requests Scenario.start)
    (account_request (platform := Scenario.collections) "nobody@example.com")
    = Ok (JArr [])
  /\ fst (getUser (platform := Scenario.collections) "nobody@example.com" Scenario.start)
     = Return (JArr [])
  /\ ~ (exists first,
          hd_error (@nil JsValue) = Some first /\
          fst (getUser (platform := Scenario.collections) "nobody@example.com" Scenario.start)
          = Return first)
  /\ fst (getUser (platform := Scenario.collections) "nobody@example.com" Scenario.start)
     <> Return (nth 0 (@nil JsValue) JUndefined).
Proof.
  split; [reflexivity | split; [reflexivity | split]].
  - intros [first [Hfirst _]]. discriminate.
  - discriminate.
Qed.

(** C8.  An identifier that matches neither the e-mail pattern nor the
    username pattern makes [getUser] fail with the invalid-argument error,
    and no request is sent: the world is left as it was. *)
Theorem getUser_rejects_invalid_identifier {platform : Platform}
    (userIdentifier : string) (w : World) :
  matches EMAIL_REGEX userIdentifier = false ->
  matches USERNAME_REGEX userIdentifier = false ->
  getUser userIdentifier w = (Throw (Error "Invalid Argument!"), w) /\
  requests (snd (getUser userIdentifier w)) = requests w.
Proof.
  intros Hemail Husername. rewrite (getUser_invalid _ _ Hemail Husername).
  split; reflexivity.
Qed.

(** An identifier with a space in it. *)
Lemma getUser_rejects_invalid_identifier_witness :
  matches EMAIL_REGEX "bad name" = false /\
  matches USERNAME_REGEX "bad name" = false /\
  getUser (platform := Scenario.healthy) "bad name" Scenario.start
    = (Throw (Error "Invalid Argument!"), Scenario.start) /\
  requests (snd (getUser (platform := Scenario.healthy) "bad name" Scenario.start)) = [].
Proof.
  split; [reflexivity | split; [reflexivity |]].
  apply (getUser_rejects_invalid_identifier (platform := Scenario.healthy)
           "bad name" Scenario.start); reflexivity.
Defined.

(** The query of an e-mail address is the e-mail filter, whatever the
    response. *)
Lemma getUser_sends_email_query {platform : Platform} (email : string) (w : World) :
  matches EMAIL_REGEX email = true ->
  requests (snd (getUser email w)) = (requests w ++ [email_request email])%list.
Proof.
  intros Hemail.
  assert (Hvalid : matches EMAIL_REGEX email || matches USERNAME_REGEX email = true)
    by (rewrite Hemail; reflexivity).
  rewrite (getUser_valid _ _ Hvalid). unfold account_request, email_request.
  rewrite Hemail. cbv zeta.
  destruct (remote _ _) as [data | status body]; [reflexivity |].
  destruct (Json.parses body); reflexivity.
Qed.

Lemma append_assoc (a b c : string) : (a ++ b) ++ c = a ++ b ++ c.
Proof.
  induction a as [| ch a IH]; cbn; [reflexivity | now rewrite IH].
Qed.

(** The text of the not-found descriptor quotes the identifier. *)
Lemma not_found_text_contains (userIdentifier : string) :
  contains (text (not_found userIdentifier)) userIdentifier.
Proof.
  unfold contains, not_found, not_found_text. cbn [text].
  exists ("We couldn't find a user with the "
            ++ (if matches EMAIL_REGEX userIdentifier then "email " else "username ")
            ++ dquote), (dquote ++ ".").
  rewrite !append_assoc. reflexivity.
Qed.

(** X24.  A 404 whose body is JSON text: the failure is raised again with
    the not-found descriptor, which says "email" and quotes the address. *)
Lemma getUser_email_not_found {platform : Platform}
    (email : string) (w : World) (body : string) :
  matches EMAIL_REGEX email = true ->
  remote (requests w) (email_request email) = Fail 404 body ->
  Json.parses body = true ->
  fst (getUser email w)
    = Throw (Failure (set_userError (http_failure 404 body) (not_found email)))
  /\ text (not_found email)
     = "We couldn't find a user with the email " ++ dquote ++ email ++ dquote ++ ".".
Proof.
  intros Hemail Hfail Hjson.
  assert (Hvalid : matches EMAIL_REGEX email || matches USERNAME_REGEX email = true)
    by (rewrite Hemail; reflexivity).
  rewrite (getUser_valid _ _ Hvalid).
  unfold account_request, not_found, not_found_text. rewrite Hemail.
  fold (email_request email). rewrite Hfail, Hjson. split; reflexivity.
Qed.

(** C6, on the code.  An e-mail address is looked up with the e-mail
    filter; but when the 404 comes with a raw body that is not JSON text,
    parsing it for the console raises a [SyntaxError], which is what
    [getUser] raises: a failure that carries no descriptor at all. *)
Theorem getUser_email_raw_404 {platform : Platform}
    (email : string) (w : World) (body : string) :
  matches EMAIL_REGEX email = true ->
  remote (requests w) (email_request email) = Fail 404 body ->
  Json.parses body = false ->
  getUser email w = (Throw SyntaxError, sent w (email_request email)) /\
  thrown_userError SyntaxError = None.
Proof.
  intros Hemail Hfail Hjson.
  assert (Hvalid : matches EMAIL_REGEX email || matches USERNAME_REGEX email = true)
    by (rewrite Hemail; reflexivity).
  rewrite (getUser_valid _ _ Hvalid).
  unfold account_request. rewrite Hemail.
  fold (email_request email). rewrite Hfail, Hjson. split; reflexivity.
Qed.

(** The account endpoint answers the filter with an HTML page. *)
Lemma getUser_email_raw_404_witness :
  matches EMAIL_REGEX "alice@example.com" = true /\
  remote (Platform := Scenario.html_errors) (requests Scenario.start)
    (email_request (platform := Scenario.html_errors) "alice@example.com")
    = Fail 404 "<Response is HTML>" /\
  Json.parses "<Response is HTML>" = false /\
  getUser (platform := Scenario.html_errors) "alice@example.com" Scenario.start
    = (Throw SyntaxError,
       sent Scenario.start (email_request (platform := Scenario.html_errors) "alice@example.com")).
Proof.
  split; [reflexivity | split; [reflexivity | split; [reflexivity |]]].
  apply (getUser_email_raw_404 (platform := Scenario.html_errors)
           "alice@example.com" Scenario.start "<Response is HTML>");
    reflexivity.
Defined.

(** ** The aggregated lookup when the user is found *)

(** C5.  When the user lookup succeeds with a record whose [username] is
    "alice", and the three dependent lookups resolve, [getAllUserData] sends
    exactly three further requests, for the entitlements, the enrollments and
    the verification status of "alice", in that order, and returns a result
    with no errors whose four data fields are what the lookups returned. *)
Theorem getAllUserData_found {platform : Platform}
    (userIdentifier : string) (w w1 w2 w3 w4 : World)
    (record entitled enrolled verified : JsValue) :
  getUser userIdentifier w = (Return record, w1) ->
  get record "username" = JStr "alice" ->
  getEntitlements (JStr "alice") w1 = (Return entitled, w2) ->
  getEnrollments (JStr "alice") w2 = (Return enrolled, w3) ->
  getUserVerificationStatus (JStr "alice") w3 = (Return verified, w4) ->
  getAllUserData userIdentifier w =
    (Return {| errors := [];
               user := record;
               entitlements := entitled;
               enrollments := enrolled;
               verificationStatus := verified |}, w4) /\
  requests w4 =
    (requests w1 ++ [entitlements_request "alice";
                     enrollments_request "alice";
                     verification_request "alice"])%list.
Proof.
  intros Hu Hname He Hn Hv. split.
  - unfold getAllUserData. unfold_async. rewrite Hu.
    destruct record; try discriminate Hname.
    cbv beta iota zeta. rewrite Hname. unfold ret. rewrite He, Hn, Hv. reflexivity.
  - rewrite getEntitlements_run in He. rewrite getEnrollments_run in Hn.
    rewrite getUserVerificationStatus_run in Hv. cbv zeta in He, Hn, Hv.
    cbn [ToString] in He, Hn, Hv.
    destruct (remote (requests w1) _); inversion He; subst w2.
    destruct (remote (requests (sent w1 _)) _); inversion Hn; subst w3.
    destruct (remote (requests (sent (sent w1 _) _)) _) as [status_data | status body].
    + inversion Hv; subst w4. cbn [requests sent].
      rewrite <- !app_assoc. reflexivity.
    + destruct (Json.parses body); inversion Hv; subst w4. cbn [requests sent logged].
      rewrite <- !app_assoc. reflexivity.
Qed.

(** Alice and her records. *)
Lemma getAllUserData_found_witness :
  getUser (platform := Scenario.healthy) "alice" Scenario.start
    = (Return Scenario.alice,
       sent Scenario.start (account_request (platform := Scenario.healthy) "alice")) /\
  get Scenario.alice "username" = JStr "alice" /\
  fst (getAllUserData (platform := Scenario.healthy) "alice" Scenario.start)
    = Return {| errors := [];
                user := Scenario.alice;
                entitlements := JObj [("results", JArr [])];
                enrollments := JArr [JObj [("mode", JStr "audit")]];
                verificationStatus :=
                  JObj [("status", JStr "approved"); ("is_verified", JBool true)] |} /\
  requests (snd (getAllUserData (platform := Scenario.healthy) "alice" Scenario.start))
    = [account_request (platform := Scenario.healthy) "alice";
       entitlements_request (platform := Scenario.healthy) "alice";
       enrollments_request (platform := Scenario.healthy) "alice";
       verification_request (platform := Scenario.healthy) "alice"].
Proof.
  assert (Hu : getUser (platform := Scenario.healthy) "alice" Scenario.start
               = (Return Scenario.alice,
                  sent Scenario.start (account_request (platform := Scenario.healthy) "alice")))
    by reflexivity.
  assert (Hname : get Scenario.alice "username" = JStr "alice") by reflexivity.
  split; [exact Hu | split; [exact Hname |]].
  destruct (getAllUserData_found (platform := Scenario.healthy)
              "alice" Scenario.start _ _ _ _ _ _ _ _ Hu Hname eq_refl eq_refl eq_refl)
    as [Hall Hrequests].
  rewrite Hall. split; [reflexivity |]. cbn [snd]. rewrite Hrequests. reflexivity.
Defined.

(** ** The verification status *)

(** X10.  A failure whose body is JSON text degrades to one of the two
    sentinels. *)
Lemma getUserVerificationStatus_degrades {platform : Platform}
    (username : JsValue) (w : World) (status : Z) (body : string) :
  remote (requests w) (verification_request (ToString username)) = Fail status body ->
  Json.parses body = true ->
  fst (getUserVerificationStatus username w) =
    Return (JObj [("status", JStr (if (status =? 404)%Z then "Not Available"
                                   else "Error, status unknown"));
                  ("expirationDatetime", JStr EmptyString);
                  ("isVerified", JBool false)]).
Proof.
  intros Hfail Hjson. rewrite getUserVerificationStatus_run, Hfail, Hjson. reflexivity.
Qed.

(** The two sentinels, on a 404 and on a 500 with a JSON body. *)
Example getUserVerificationStatus_not_available :
  fst (getUserVerificationStatus (platform := Scenario.nobody) (JStr "alice") Scenario.start)
  = Return (JObj [("status", JStr "Not Available");
                  ("expirationDatetime", JStr EmptyString);
                  ("isVerified", JBool false)]).
Proof. reflexivity. Qed.

Example getUserVerificationStatus_unknown :
  fst (getUserVerificationStatus (platform := Scenario.json_errors) (JStr "alice")
         Scenario.start)
  = Return (JObj [("status", JStr "Error, status unknown");
                  ("expirationDatetime", JStr EmptyString);
                  ("isVerified", JBool false)]).
Proof. reflexivity. Qed.

(** C7, on the code.  A failed verification-status call whose raw body is
    not JSON text makes [getUserVerificationStatus] raise: the body is
    parsed for the console before either sentinel is built, and the
    [SyntaxError] of the parse leaves the handler. *)
Theorem getUserVerificationStatus_raw_failure {platform : Platform}
    (username : JsValue) (w : World) (status : Z) (body : string) :
  remote (requests w) (verification_request (ToString username)) = Fail status body ->
  Json.parses body = false ->
  getUserVerificationStatus username w
    = (Throw SyntaxError, sent w (verification_request (ToString username))).
Proof.
  intros Hfail Hjson. rewrite getUserVerificationStatus_run, Hfail, Hjson. reflexivity.
Qed.

(** The verification endpoint answers 500 with an HTML page. *)
Lemma getUserVerificationStatus_raw_failure_witness :
  remote (Platform := Scenario.html_errors) (requests Scenario.start)
    (verification_request (platform := Scenario.html_errors) "alice")
    = Fail 500 "<Response is HTML>" /\
  Json.parses "<Response is HTML>" = false /\
  getUserVerificationStatus (platform := Scenario.html_errors) (JStr "alice") Scenario.start
    = (Throw SyntaxError,
       sent Scenario.start (verification_request (platform := Scenario.html_errors) "alice")).
Proof.
  split; [reflexivity | split; [reflexivity |]].
  apply (getUserVerificationStatus_raw_failure (platform := Scenario.html_errors)
           (JStr "alice") Scenario.start 500 "<Response is HTML>");
    reflexivity.
Defined.

(** ** The mutations *)

Section Mutations.

Context {platform : Platform}.

Lemma patchEntitlement_run (args : PatchEntitlementArgs) (w : World) :
  patchEntitlement args w =
    let w' := sent w (patch_entitlement_request args) in
    match remote (requests w) (patch_entitlement_request args) with
    | Ok data => (Return (Data data), w')
    | Fail status body =>
        submission_failed "entitlements" (Failure (http_failure status body)) w'
    end.
Proof.
  unfold patchEntitlement, patch_entitlement_request, sent, http_failure.
  unfold bind, ret, try_catch, http_patch, send.
  destruct (remote _ _); reflexivity.
Qed.

Lemma postEntitlement_run (args : PostEntitlementArgs) (w : World) :
  postEntitlement args w =
    let w' := sent w (post_entitlement_request args) in
    match remote (requests w) (post_entitlement_request args) with
    | Ok data => (Return (Data data), w')
    | Fail status body =>
        submission_failed "entitlements" (Failure (http_failure status body)) w'
    end.
Proof.
  unfold postEntitlement, post_entitlement_request, sent, http_failure.
  unfold bind, ret, try_catch, http_post, send.
  destruct (remote _ _); reflexivity.
Qed.

Lemma postEnrollmentChange_run (args : EnrollmentChangeArgs) (w : World) :
  postEnrollmentChange args w =
    let w' := sent w (enrollment_change_request args) in
    match remote (requests w) (enrollment_change_request args) with
    | Ok data => (Return (Data data), w')
    | Fail status body =>
        submission_failed "enrollments" (Failure (http_failure status body)) w'
    end.
Proof.
  unfold postEnrollmentChange, enrollment_change_request, sent, http_failure.
  unfold bind, ret, try_catch, http_post, send.
  destruct (remote _ _); reflexivity.
Qed.

(** A failure that is not a 400, or whose body is JSON text, is turned
    into the one descriptor of the mutation. *)
Lemma patchEntitlement_resolves (args : PatchEntitlementArgs) (w : World)
    (status : Z) (body : string) :
  remote (requests w) (patch_entitlement_request args) = Fail status body ->
  status <> 400%Z \/ Json.parses body = true ->
  fst (patchEntitlement args w) = Return (Errors [submission_error "entitlements"]).
Proof.
  intros Hfail Hlogged.
  rewrite patchEntitlement_run, Hfail. cbv zeta. rewrite submission_failed_run.
  destruct (Z.eqb_spec status 400); [| reflexivity].
  destruct Hlogged as [Hstatus | Hjson]; [contradiction |].
  rewrite Hjson. reflexivity.
Qed.

Lemma postEntitlement_resolves (args : PostEntitlementArgs) (w : World)
    (status : Z) (body : string) :
  remote (requests w) (post_entitlement_request args) = Fail status body ->
  status <> 400%Z \/ Json.parses body = true ->
  fst (postEntitlement args w) = Return (Errors [submission_error "entitlements"]).
Proof.
  intros Hfail Hlogged.
  rewrite postEntitlement_run, Hfail. cbv zeta. rewrite submission_failed_run.
  destruct (Z.eqb_spec status 400); [| reflexivity].
  destruct Hlogged as [Hstatus | Hjson]; [contradiction |].
  rewrite Hjson. reflexivity.
Qed.

(** Whatever the handler of the mutations resolves to or raises, its
    descriptors are the one of its topic. *)
Lemma submission_failed_descriptors (topic : string) (error : Thrown) (w : World) :
  reply_descriptors (fst (submission_failed topic error w)) = [submission_error topic]
  \/ reply_descriptors (fst (submission_failed topic error w)) = [].
Proof.
  unfold submission_failed, submission_error. unfold_async.
  destruct error as [e | | |]; try (right; reflexivity).
  destruct (customAttributes e) as [attributes |]; [| right; reflexivity].
  destruct (httpErrorStatus attributes =? 400)%Z; [| left; reflexivity].
  destruct (Json.parses _); [left | right]; reflexivity.
Qed.

End Mutations.

(** A 400 with a JSON body, and a 502 whose body is never parsed. *)
Example patchEntitlement_rejected :
  fst (patchEntitlement (platform := Scenario.json_errors) Scenario.patch_e1 Scenario.start)
  = Return (Errors [submission_error "entitlements"]).
Proof. reflexivity. Qed.

Example postEntitlement_bad_gateway :
  postEntitlement (platform := Scenario.json_errors) Scenario.post_alice Scenario.start
  = (Return (Errors [submission_error "entitlements"]),
     sent Scenario.start
       (post_entitlement_request (platform := Scenario.json_errors) Scenario.post_alice)).
Proof. reflexivity. Qed.

(** C9, on the code.  A 400 whose raw body is not JSON text makes
    [patchEntitlement] and [postEntitlement] raise: on a 400 the body is
    parsed for the console, and the [SyntaxError] of the parse leaves the
    handler before the [errors] object is built. *)
Theorem entitlement_mutations_raw_400 {platform : Platform}
    (patch : PatchEntitlementArgs) (post : PostEntitlementArgs) (w : World)
    (body : string) :
  Json.parses body = false ->
  remote (requests w) (patch_entitlement_request patch) = Fail 400 body ->
  remote (requests w) (post_entitlement_request post) = Fail 400 body ->
  patchEntitlement patch w = (Throw SyntaxError, sent w (patch_entitlement_request patch)) /\
  postEntitlement post w = (Throw SyntaxError, sent w (post_entitlement_request post)).
Proof.
  intros Hjson Hpatch Hpost.
  rewrite patchEntitlement_run, postEntitlement_run, Hpatch, Hpost. cbv zeta.
  rewrite !submission_failed_run, Hjson. split; reflexivity.
Qed.

(** The entitlement endpoints answer 400 with an HTML page. *)
Lemma entitlement_mutations_raw_400_witness :
  Json.parses "<Response is HTML>" = false /\
  remote (Platform := Scenario.html_errors) (requests Scenario.start)
    (patch_entitlement_request (platform := Scenario.html_errors) Scenario.patch_e1)
    = Fail 400 "<Response is HTML>" /\
  remote (Platform := Scenario.html_errors) (requests Scenario.start)
    (post_entitlement_request (platform := Scenario.html_errors) Scenario.post_alice)
    = Fail 400 "<Response is HTML>" /\
  fst (patchEntitlement (platform := Scenario.html_errors) Scenario.patch_e1 Scenario.start)
    = Throw SyntaxError /\
  fst (postEntitlement (platform := Scenario.html_errors) Scenario.post_alice Scenario.start)
    = Throw SyntaxError.
Proof.
  split; [reflexivity | split; [reflexivity | split; [reflexivity |]]].
  destruct (entitlement_mutations_raw_400 (platform := Scenario.html_errors)
              Scenario.patch_e1 Scenario.post_alice Scenario.start "<Response is HTML>"
              eq_refl eq_refl eq_refl) as [Hpatch Hpost].
  rewrite Hpatch, Hpost. split; reflexivity.
Defined.

(** ** The descriptors *)

Lemma well_formed_spec (d : ErrorDescriptor) :
  well_formed d = true -> WellFormed d.
Proof.
  unfold well_formed, WellFormed. intros H.
  apply andb_prop in H. destruct H as [H Htopic].
  apply andb_prop in H. destruct H as [H Htype].
  apply andb_prop in H. destruct H as [Hcode Hdismissible].
  repeat split.
  - destruct (code d); try discriminate; reflexivity.
  - destruct (dismissible d); [reflexivity | discriminate].
  - apply orb_prop in Htype. destruct Htype as [Ht | Ht];
      apply String.eqb_eq in Ht; auto.
  - apply orb_prop in Htopic. destruct Htopic as [Ht | Ht];
      [apply orb_prop in Ht; destruct Ht as [Ht | Ht];
       [apply orb_prop in Ht; destruct Ht as [Ht | Ht] |] |];
      apply String.eqb_eq in Ht; auto.
Qed.

Lemma all_well_formed (descriptors : list ErrorDescriptor) :
  forallb well_formed descriptors = true -> Forall WellFormed descriptors.
Proof.
  intros H. apply Forall_forall. intros d Hd.
  apply well_formed_spec. rewrite forallb_forall in H. exact (H d Hd).
Qed.

Lemma submission_error_text (topic : string) :
  contains (text (submission_error topic)) "this entitlement".
Proof.
  exists "There was an error submitting ",
         ". Check the JavaScript console for detailed errors.".
  reflexivity.
Qed.

(** C10.  Every descriptor built by [getUser], [getRetirement],
    [getCourseData], [patchEntitlement], [postEntitlement] and
    [postEnrollmentChange], whether it is raised with a failure or returned,
    has a [null] code, is dismissible, has type "error" or "danger" and one
    of the four topics; and a descriptor returned by
    [postEnrollmentChange] has topic "enrollments" while its text speaks of
    "this entitlement". *)
Theorem descriptors_well_formed {platform : Platform} :
  (forall userIdentifier w,
     Forall WellFormed (raised_descriptors (fst (getUser userIdentifier w)))) /\
  (forall username w,
     Forall WellFormed (retirement_descriptors (fst (getRetirement username w)))) /\
  (forall courseUUID w,
     Forall WellFormed (reply_descriptors (fst (getCourseData courseUUID w)))) /\
  (forall args w,
     Forall WellFormed (reply_descriptors (fst (patchEntitlement args w)))) /\
  (forall args w,
     Forall WellFormed (reply_descriptors (fst (postEntitlement args w)))) /\
  (forall args w,
     Forall WellFormed (reply_descriptors (fst (postEnrollmentChange args w)))) /\
  (forall args w d,
     In d (reply_descriptors (fst (postEnrollmentChange args w))) ->
     topic d = "enrollments" /\ contains (text d) "this entitlement").
Proof.
  repeat match goal with |- _ /\ _ => split end.
  - intros userIdentifier w. apply all_well_formed.
    destruct (matches EMAIL_REGEX userIdentifier || matches USERNAME_REGEX userIdentifier)
      eqn:Hvalid.
    + rewrite (getUser_valid _ _ Hvalid). cbv zeta.
      destruct (remote _ _) as [data | status body]; [reflexivity |].
      destruct (Json.parses body); [| reflexivity].
      destruct (status =? 404)%Z; reflexivity.
    + apply orb_false_elim in Hvalid. destruct Hvalid as [He Hn].
      rewrite (getUser_invalid _ _ He Hn). reflexivity.
  - intros username w. apply all_well_formed.
    unfold getRetirement. unfold_async.
    destruct (remote _ _) as [data | status body]; async_simpl.
    + destruct (camelCaseObject data); reflexivity.
    + destruct (status =? 404)%Z; reflexivity.
  - intros courseUUID w. apply all_well_formed.
    unfold getCourseData. unfold_async.
    destruct (remote _ _) as [data | status body]; async_simpl; [reflexivity |].
    destruct (Json.parses body); [| reflexivity].
    destruct (status =? 404)%Z; reflexivity.
  - intros args w. apply all_well_formed.
    rewrite patchEntitlement_run. cbv zeta.
    destruct (remote _ _) as [data | status body]; [reflexivity |].
    destruct (submission_failed_descriptors "entitlements"
                (Failure (http_failure status body))
                (sent w (patch_entitlement_request args))) as [H | H];
      rewrite H; reflexivity.
  - intros args w. apply all_well_formed.
    rewrite postEntitlement_run. cbv zeta.
    destruct (remote _ _) as [data | status body]; [reflexivity |].
    destruct (submission_failed_descriptors "entitlements"
                (Failure (http_failure status body))
                (sent w (post_entitlement_request args))) as [H | H];
      rewrite H; reflexivity.
  - intros args w. apply all_well_formed.
    rewrite postEnrollmentChange_run. cbv zeta.
    destruct (remote _ _) as [data | status body]; [reflexivity |].
    destruct (submission_failed_descriptors "enrollments"
                (Failure (http_failure status body))
                (sent w (enrollment_change_request args))) as [H | H];
      rewrite H; reflexivity.
  - intros args w d. rewrite postEnrollmentChange_run. cbv zeta.
    destruct (remote _ _) as [data | status body]; [intros [] |].
    destruct (submission_failed_descriptors "enrollments"
                (Failure (http_failure status body))
                (sent w (enrollment_change_request args))) as [H | H];
      rewrite H; [| intros []].
    intros [<- | []]. split; [reflexivity | apply submission_error_text].
Qed.

(** A rejected change of enrollment mode. *)
Lemma descriptors_well_formed_witness :
  fst (postEnrollmentChange (platform := Scenario.json_errors)
         Scenario.change_alice Scenario.start)
    = Return (Errors [submission_error "enrollments"]) /\
  WellFormed (submission_error "enrollments") /\
  topic (submission_error "enrollments") = "enrollments" /\
  contains (text (submission_error "enrollments")) "this entitlement".
Proof.
  split; [reflexivity |].
  destruct (descriptors_well_formed (platform := Scenario.json_errors))
    as [_ [_ [_ [_ [_ [Hwf Htopic]]]]]].
  specialize (Hwf Scenario.change_alice Scenario.start).
  specialize (Htopic Scenario.change_alice Scenario.start
                (submission_error "enrollments") (or_introl eq_refl)).
  split; [| exact Htopic].
  inversion Hwf; assumption.
Defined.

(** * Further properties *)

(** ** The identifier patterns *)

Section Patterns.

Lemma append_nil_r (s : string) : s ++ EmptyString = s.
Proof.
  induction s as [| c s IH]; cbn; [reflexivity | now rewrite IH].
Qed.

Lemma append_eq_nil (s1 s2 : string) :
  s1 ++ s2 = EmptyString -> s1 = EmptyString /\ s2 = EmptyString.
Proof.
  destruct s1; cbn; intros H; [split; [reflexivity | exact H] | discriminate].
Qed.

(** A concatenation that starts with [c]: either the first part is empty,
    or it starts with [c]. *)
Lemma append_eq_cons (s1 s2 : string) (c : ascii) (s : string) :
  s1 ++ s2 = String c s ->
  (s1 = EmptyString /\ s2 = String c s)
  \/ (exists s1', s1 = String c s1' /\ s = s1' ++ s2).
Proof.
  destruct s1 as [| c1 s1]; cbn; intros H.
  - left. split; [reflexivity | exact H].
  - right. inversion H; subst. exists s1. split; reflexivity.
Qed.

Lemma nullable_language (r : regex) :
  nullable r = true <-> Language r EmptyString.
Proof.
  split.
  - induction r; cbn; intros H; try discriminate.
    + constructor.
    + apply andb_prop in H. destruct H as [H1 H2].
      change EmptyString with (EmptyString ++ EmptyString). constructor; auto.
    + apply orb_prop in H. destruct H as [H | H];
        [apply LAltL | apply LAltR]; auto.
    + constructor.
  - intros H. remember EmptyString as s eqn:Hs.
    induction H; cbn; try discriminate; try reflexivity.
    + apply append_eq_nil in Hs. destruct Hs as [-> ->].
      rewrite IHLanguage1, IHLanguage2; reflexivity.
    + rewrite IHLanguage; [reflexivity | assumption].
    + rewrite IHLanguage; [apply orb_true_r | assumption].
Qed.

Lemma deriv_sound (c : ascii) (r : regex) :
  forall s, Language (deriv c r) s -> Language r (String c s).
Proof.
  induction r; cbn; intros s H.
  - inversion H.
  - inversion H.
  - destruct (Ascii.eqb_spec c c0) as [-> |]; inversion H; subst. constructor.
  - destruct (p c) eqn:Hp; inversion H; subst. constructor. exact Hp.
  - destruct (nullable r1) eqn:Hn.
    + inversion H as [| | | | ? ? ? H1 | ? ? ? H2 | |]; subst.
      * inversion H1; subst.
        change (String c (s1 ++ s2)) with (String c s1 ++ s2). constructor; auto.
      * change (String c s) with (EmptyString ++ String c s).
        constructor; [apply nullable_language; exact Hn | auto].
    + inversion H; subst.
      change (String c (s1 ++ s2)) with (String c s1 ++ s2). constructor; auto.
  - inversion H; subst; [apply LAltL | apply LAltR]; auto.
  - inversion H; subst.
    change (String c (s1 ++ s2)) with (String c s1 ++ s2). constructor; auto.
Qed.

Lemma deriv_complete (c : ascii) (r : regex) (t : string) :
  Language r t -> forall u, t = String c u -> Language (deriv c r) u.
Proof.
  induction 1; intros u Ht; cbn.
  - discriminate.
  - inversion Ht; subst. rewrite Ascii.eqb_refl. constructor.
  - inversion Ht; subst. rewrite H. constructor.
  - destruct (append_eq_cons _ _ _ _ Ht) as [[-> ->] | [s1' [-> ->]]].
    + assert (Hn : nullable r1 = true) by (apply nullable_language; assumption).
      rewrite Hn. apply LAltR. apply IHLanguage2. reflexivity.
    + destruct (nullable r1).
      * apply LAltL. constructor; [apply IHLanguage1; reflexivity | assumption].
      * constructor; [apply IHLanguage1; reflexivity | assumption].
  - apply LAltL. auto.
  - apply LAltR. auto.
  - discriminate.
  - destruct (append_eq_cons _ _ _ _ Ht) as [[-> ->] | [s1' [-> ->]]].
    + exact (IHLanguage2 _ eq_refl).
    + constructor; [apply IHLanguage1; reflexivity | assumption].
Qed.

(** Matching by derivatives decides the language of the pattern. *)
Lemma matches_language (s : string) :
  forall r, matches r s = true <-> Language r s.
Proof.
  induction s as [| c s IH]; intros r; cbn.
  - apply nullable_language.
  - rewrite IH. split.
    + apply deriv_sound.
    + intros H. exact (deriv_complete c r _ H s eq_refl).
Qed.

End Patterns.

Section PatternLanguages.

Lemma all_chars_cons (p : ascii -> bool) (c : ascii) (s : string) :
  all_chars p (String c s) = p c && all_chars p s.
Proof. reflexivity. Qed.

Lemma all_chars_app (p : ascii -> bool) (s1 s2 : string) :
  all_chars p (s1 ++ s2) = all_chars p s1 && all_chars p s2.
Proof.
  induction s1 as [| c s1 IH]; [reflexivity |].
  cbn [append]. rewrite !all_chars_cons, IH. apply andb_assoc.
Qed.

Lemma all_chars_weaken (p q r : ascii -> bool) (s : string) :
  (forall c, p c = true -> q c = true -> r c = true) ->
  all_chars p s = true -> all_chars q s = true -> all_chars r s = true.
Proof.
  intros Himp. induction s as [| c s IH]; [reflexivity |].
  rewrite !all_chars_cons. intros Hp Hq.
  apply andb_prop in Hp. apply andb_prop in Hq.
  destruct Hp as [Hpc Hps], Hq as [Hqc Hqs].
  rewrite (Himp c Hpc Hqc), (IH Hps Hqs). reflexivity.
Qed.

Lemma class_language (p : ascii -> bool) (s : string) :
  Language (Class p) s -> exists c, s = String c EmptyString /\ p c = true.
Proof.
  intros H. inversion H as [| | ? c Hc | | | | |]; subst. exists c. auto.
Qed.

Lemma seq_language (r1 r2 : regex) (s : string) :
  Language (Seq r1 r2) s ->
  exists s1 s2, s = s1 ++ s2 /\ Language r1 s1 /\ Language r2 s2.
Proof.
  intros H. inversion H as [| | | ? ? s1 s2 H1 H2 | | | |]; subst.
  exists s1, s2. auto.
Qed.

Lemma chr_language (c : ascii) (s : string) :
  Language (Chr c) s -> s = String c EmptyString.
Proof.
  intros H. inversion H; subst. reflexivity.
Qed.

Lemma star_class_language (p : ascii -> bool) (s : string) :
  Language (Star (Class p)) s <-> all_chars p s = true.
Proof.
  split.
  - intros H. remember (Star (Class p)) as r eqn:Hr.
    induction H; try discriminate; [reflexivity |].
    inversion Hr; subst. rewrite all_chars_app, (IHLanguage2 eq_refl).
    destruct (class_language _ _ H) as [c [-> Hc]].
    rewrite all_chars_cons, Hc. reflexivity.
  - induction s as [| c s IH]; intros H; [constructor |].
    rewrite all_chars_cons in H. apply andb_prop in H. destruct H as [Hc Hs].
    change (String c s) with (String c EmptyString ++ s).
    constructor; [constructor; exact Hc | exact (IH Hs)].
Qed.

Lemma plus_class_language (p : ascii -> bool) (s : string) :
  Language (Plus (Class p)) s <-> s <> EmptyString /\ all_chars p s = true.
Proof.
  unfold Plus. split.
  - intros H. destruct (seq_language _ _ _ H) as [s1 [s2 [-> [H1 H2]]]].
    destruct (class_language _ _ H1) as [c [-> Hc]]. apply star_class_language in H2.
    split; [discriminate |]. cbn [append]. rewrite all_chars_cons, Hc, H2. reflexivity.
  - intros [Hne Hall]. destruct s as [| c s]; [contradiction |].
    rewrite all_chars_cons in Hall. apply andb_prop in Hall. destruct Hall as [Hc Hs].
    change (String c s) with (String c EmptyString ++ s).
    constructor; [constructor; exact Hc | apply star_class_language; exact Hs].
Qed.

Lemma at_least2_class_language (p : ascii -> bool) (s : string) :
  Language (AtLeast2 (Class p)) s <-> (2 <= String.length s)%nat /\ all_chars p s = true.
Proof.
  unfold AtLeast2. split.
  - intros H. destruct (seq_language _ _ _ H) as [s1 [s23 [-> [H1 H23]]]].
    destruct (seq_language _ _ _ H23) as [s2 [s3 [-> [H2 H3]]]].
    destruct (class_language _ _ H1) as [a [-> Ha]].
    destruct (class_language _ _ H2) as [b [-> Hb]].
    apply star_class_language in H3.
    cbn [append String.length]. split; [lia |].
    rewrite !all_chars_cons, Ha, Hb, H3. reflexivity.
  - intros [Hlen Hall]. destruct s as [| a [| b s]]; cbn in Hlen; try lia.
    rewrite !all_chars_cons in Hall.
    apply andb_prop in Hall. destruct Hall as [Ha Hall].
    apply andb_prop in Hall. destruct Hall as [Hb Hs].
    change (String a (String b s))
      with (String a EmptyString ++ (String b EmptyString ++ s)).
    repeat constructor; try assumption. apply star_class_language. exact Hs.
Qed.

(** An address is a local part, [@], a domain, a dot and a top-level
    domain of letters. *)
Definition email_parts (s local domain tld : string) : Prop :=
  s = local ++ "@" ++ domain ++ "." ++ tld /\
  local <> EmptyString /\ all_chars email_local_char local = true /\
  domain <> EmptyString /\ all_chars email_domain_char domain = true /\
  (2 <= String.length tld)%nat /\ all_chars alpha tld = true.

Lemma email_language (s : string) :
  Language EMAIL_REGEX s <-> exists local domain tld, email_parts s local domain tld.
Proof.
  unfold EMAIL_REGEX, email_parts. split.
  - intros H.
    destruct (seq_language _ _ _ H) as [local [s2 [-> [Hl H2]]]].
    destruct (seq_language _ _ _ H2) as [at_ [s3 [-> [Hat H3]]]].
    destruct (seq_language _ _ _ H3) as [domain [s4 [-> [Hd H4]]]].
    destruct (seq_language _ _ _ H4) as [dot [tld [-> [Hdot Ht]]]].
    apply chr_language in Hat. apply chr_language in Hdot. subst at_ dot.
    apply (plus_class_language email_local_char) in Hl.
    apply (plus_class_language email_domain_char) in Hd.
    apply at_least2_class_language in Ht.
    exists local, domain, tld. tauto.
  - intros [local [domain [tld [-> [Hl [Hla [Hd [Hda [Ht Hta]]]]]]]]].
    constructor; [apply (plus_class_language email_local_char); auto |].
    change ("@" ++ domain ++ "." ++ tld)
      with (String "@" EmptyString ++ (domain ++ (String "." EmptyString ++ tld))).
    constructor; [constructor |].
    constructor; [apply (plus_class_language email_domain_char); auto |].
    constructor; [constructor |].
    apply at_least2_class_language. auto.
Qed.

(** Character by character: what the classes of the e-mail pattern allow
    is allowed in a username, the percent sign apart. *)
Lemma email_local_char_username (c : ascii) :
  email_local_char c = true -> username_char c || Ascii.eqb c "%" = true.
Proof.
  destruct c as [[] [] [] [] [] [] [] []]; vm_compute; intros H;
    first [reflexivity | discriminate H].
Qed.

Lemma email_domain_char_username (c : ascii) :
  email_domain_char c = true -> username_char c = true.
Proof.
  destruct c as [[] [] [] [] [] [] [] []]; vm_compute; intros H;
    first [reflexivity | discriminate H].
Qed.

Lemma alpha_username (c : ascii) : alpha c = true -> username_char c = true.
Proof.
  destruct c as [[] [] [] [] [] [] [] []]; vm_compute; intros H;
    first [reflexivity | discriminate H].
Qed.

(** Every character of an address is a username character or a percent
    sign. *)
Lemma email_chars (s : string) :
  Language EMAIL_REGEX s ->
  all_chars (fun c => username_char c || Ascii.eqb c "%") s = true.
Proof.
  intros H. apply email_language in H.
  destruct H as [local [domain [tld [-> [_ [Hla [_ [Hda [_ Hta]]]]]]]]].
  rewrite !all_chars_app.
  rewrite (all_chars_weaken email_local_char email_local_char _ local
             (fun c H _ => email_local_char_username c H) Hla Hla).
  rewrite (all_chars_weaken email_domain_char email_domain_char _ domain
             (fun c H _ => eq_trans (f_equal (fun b => b || _) (email_domain_char_username c H))
                                    eq_refl) Hda Hda).
  rewrite (all_chars_weaken alpha alpha _ tld
             (fun c H _ => eq_trans (f_equal (fun b => b || _) (alpha_username c H))
                                    eq_refl) Hta Hta).
  reflexivity.
Qed.

End PatternLanguages.

(** X1.  The username pattern accepts exactly the non-empty identifiers
    made of letters, digits and the characters [. @ _ + -]. *)
Theorem username_pattern_accepts (s : string) :
  matches USERNAME_REGEX s = true <->
  s <> EmptyString /\ all_chars username_char s = true.
Proof.
  rewrite matches_language. apply (plus_class_language username_char).
Qed.

(** X2.  The e-mail pattern accepts exactly the identifiers made of a
    non-empty local part (letters, digits, [. _ % + -]), an [@], a non-empty
    domain (letters, digits, [. -]), a dot, and at least two letters. *)
Theorem email_pattern_accepts (s : string) :
  matches EMAIL_REGEX s = true <->
  exists local domain tld,
    s = local ++ "@" ++ domain ++ "." ++ tld /\
    local <> EmptyString /\ all_chars email_local_char local = true /\
    domain <> EmptyString /\ all_chars email_domain_char domain = true /\
    (2 <= String.length tld)%nat /\ all_chars alpha tld = true.
Proof.
  rewrite matches_language. apply email_language.
Qed.

Lemma email_nonempty (s : string) : Language EMAIL_REGEX s -> s <> EmptyString.
Proof.
  intros H. apply email_language in H.
  destruct H as [local [domain [tld [-> [Hl _]]]]].
  destruct local; [contradiction | discriminate].
Qed.

Lemma percent_is_no_username_char (c : ascii) :
  username_char c || Ascii.eqb c "%" = true ->
  (username_char c = true <-> negb (Ascii.eqb c "%") = true).
Proof.
  destruct c as [[] [] [] [] [] [] [] []]; vm_compute; intros H;
    first [discriminate H | split; intros H'; first [reflexivity | discriminate H']].
Qed.

(** X3.  An identifier accepted by the e-mail pattern is also accepted by
    the username pattern exactly when it has no percent sign: only the
    order of the two tests in [getUser] makes such an identifier an e-mail
    address. *)
Theorem email_is_username_without_percent (s : string) :
  matches EMAIL_REGEX s = true ->
  (matches USERNAME_REGEX s = true <->
   all_chars (fun c => negb (Ascii.eqb c "%")) s = true).
Proof.
  intros Hemail. apply matches_language in Hemail.
  pose proof (email_chars s Hemail) as Hchars.
  pose proof (email_nonempty s Hemail) as Hne.
  rewrite matches_language. split.
  - intros H. apply (plus_class_language username_char) in H. destruct H as [_ H].
    apply (all_chars_weaken _ _ _ s
             (fun c Hc Hu => proj1 (percent_is_no_username_char c Hc) Hu) Hchars H).
  - intros H. apply (plus_class_language username_char). split; [exact Hne |].
    apply (all_chars_weaken _ _ _ s
             (fun c Hc Hp => proj2 (percent_is_no_username_char c Hc) Hp) Hchars H).
Qed.

(** An address without a percent sign, and one with. *)
Lemma email_is_username_without_percent_witness :
  (matches EMAIL_REGEX "alice@example.com" = true /\
   matches USERNAME_REGEX "alice@example.com" = true) /\
  (matches EMAIL_REGEX "a%b@example.com" = true /\
   matches USERNAME_REGEX "a%b@example.com" = false).
Proof.
  split; (split; [reflexivity |]).
  - apply (proj2 (email_is_username_without_percent "alice@example.com" eq_refl)).
    reflexivity.
  - destruct (matches USERNAME_REGEX "a%b@example.com") eqn:H; [| reflexivity].
    pose proof (proj1 (email_is_username_without_percent "a%b@example.com" eq_refl) H)
      as Hpercent.
    vm_compute in Hpercent. discriminate Hpercent.
Defined.

Lemma all_chars_in (p : ascii -> bool) (s : string) (c : ascii) :
  all_chars p s = true -> In c (list_ascii_of_string s) -> p c = true.
Proof.
  unfold all_chars. rewrite forallb_forall. auto.
Qed.

(** X4.  An identifier with a character that is neither a username
    character nor a percent sign (a space, a slash, a quote, a character
    outside ASCII) is rejected by [getUser] before any request. *)
Theorem getUser_rejects_foreign_character {platform : Platform}
    (userIdentifier : string) (c : ascii) (w : World) :
  In c (list_ascii_of_string userIdentifier) ->
  username_char c = false ->
  c <> "%"%char ->
  getUser userIdentifier w = (Throw (Error "Invalid Argument!"), w).
Proof.
  intros Hin Hc Hpercent. apply getUser_invalid.
  - destruct (matches EMAIL_REGEX userIdentifier) eqn:H; [| reflexivity].
    apply matches_language in H. apply email_chars in H.
    pose proof (all_chars_in _ _ _ H Hin) as Hallowed. cbv beta in Hallowed.
    rewrite Hc in Hallowed. cbn in Hallowed.
    apply Ascii.eqb_eq in Hallowed. contradiction.
  - destruct (matches USERNAME_REGEX userIdentifier) eqn:H; [| reflexivity].
    apply matches_language in H. apply (plus_class_language username_char) in H.
    destruct H as [_ H]. rewrite (all_chars_in _ _ _ H Hin) in Hc. discriminate.
Qed.

(** A slash in the identifier. *)
Lemma getUser_rejects_foreign_character_witness :
  In "/"%char (list_ascii_of_string "alice/retirement_information") /\
  username_char "/" = false /\
  "/"%char <> "%"%char /\
  getUser (platform := Scenario.healthy) "alice/retirement_information" Scenario.start
    = (Throw (Error "Invalid Argument!"), Scenario.start).
Proof.
  assert (Hin : In "/"%char (list_ascii_of_string "alice/retirement_information"))
    by (cbn; tauto).
  assert (Hne : "/"%char <> "%"%char) by discriminate.
  split; [exact Hin | split; [reflexivity | split; [exact Hne |]]].
  apply (getUser_rejects_foreign_character (platform := Scenario.healthy)
           "alice/retirement_information" "/" Scenario.start Hin eq_refl Hne).
Defined.

(** ** More on the user lookup *)

(** X5.  [getUser] sends one request for an identifier that one of the
    patterns accepts and none otherwise, whatever the response: there is no
    second attempt. *)
Theorem getUser_sends_at_most_one_request {platform : Platform}
    (userIdentifier : string) (w : World) :
  requests (snd (getUser userIdentifier w)) =
    (requests w ++
       (if matches EMAIL_REGEX userIdentifier || matches USERNAME_REGEX userIdentifier
        then [account_request userIdentifier]
        else []))%list.
Proof.
  destruct (matches EMAIL_REGEX userIdentifier || matches USERNAME_REGEX userIdentifier)
    eqn:Hvalid.
  - rewrite (getUser_valid _ _ Hvalid). cbv zeta.
    destruct (remote _ _) as [data | status body]; [reflexivity |].
    destruct (Json.parses body); reflexivity.
  - apply orb_false_elim in Hvalid. destruct Hvalid as [He Hn].
    rewrite (getUser_invalid _ _ He Hn). cbn [snd]. symmetry. apply app_nil_r.
Qed.

(** X6.  A failure of the HTTP client never leaves [getUser] as it came:
    when [getUser] raises a failure object, that object still has the status
    and the body of the response, the body is JSON text that was written to
    the console, and the object carries the not-found descriptor (status 404)
    or the loading descriptor (any other status). *)
Theorem getUser_raised_failure_is_described {platform : Platform}
    (userIdentifier : string) (w : World) (e : ErrorObject) :
  fst (getUser userIdentifier w) = Throw (Failure e) ->
  exists status body,
    remote (requests w) (account_request userIdentifier) = Fail status body /\
    customAttributes e = Some {| httpErrorStatus := status;
                                 httpErrorResponseData := body |} /\
    Json.parses body = true /\
    userError e = Some (if (status =? 404)%Z
                        then not_found userIdentifier
                        else loading_failed) /\
    console (snd (getUser userIdentifier w)) = (console w ++ [body])%list.
Proof.
  destruct (matches EMAIL_REGEX userIdentifier || matches USERNAME_REGEX userIdentifier)
    eqn:Hvalid.
  - rewrite (getUser_valid _ _ Hvalid). cbv zeta.
    destruct (remote _ _) as [data | status body]; [discriminate |].
    destruct (Json.parses body) eqn:Hjson; [| discriminate].
    cbn [fst snd]. intros H. inversion H; subst.
    exists status, body.
    split; [reflexivity | split; [reflexivity | split; [exact Hjson |]]].
    split; reflexivity.
  - apply orb_false_elim in Hvalid. destruct Hvalid as [He Hn].
    rewrite (getUser_invalid _ _ He Hn). discriminate.
Qed.

(** The lookup of an unknown username. *)
Lemma getUser_raised_failure_is_described_witness :
  fst (getUser (platform := Scenario.nobody) "alice" Scenario.start)
    = Throw (Failure (set_userError (http_failure 404 "{}") (not_found "alice"))) /\
  console (snd (getUser (platform := Scenario.nobody) "alice" Scenario.start)) = ["{}"].
Proof.
  assert (Hu : fst (getUser (platform := Scenario.nobody) "alice" Scenario.start)
               = Throw (Failure (set_userError (http_failure 404 "{}") (not_found "alice"))))
    by reflexivity.
  split; [exact Hu |].
  destruct (getUser_raised_failure_is_described (platform := Scenario.nobody)
              "alice" Scenario.start _ Hu) as [status [body [Hfail [_ [_ [_ Hconsole]]]]]].
  rewrite Hconsole. vm_compute in Hfail. inversion Hfail. reflexivity.
Defined.

(** X7.  A username that is not an e-mail address is looked up by path,
    and a 404 with a JSON body is raised again with a descriptor that says
    "username" and quotes the identifier. *)
Theorem getUser_username_not_found {platform : Platform}
    (username : string) (w : World) (body : string) :
  matches EMAIL_REGEX username = false ->
  matches USERNAME_REGEX username = true ->
  remote (requests w)
    (get_request ((LMS_BASE_URL ++ "/api/user/v1/accounts") ++ "/" ++ username))
    = Fail 404 body ->
  Json.parses body = true ->
  requests (snd (getUser username w)) =
    (requests w
       ++ [get_request ((LMS_BASE_URL ++ "/api/user/v1/accounts") ++ "/" ++ username)])%list /\
  exists e,
    fst (getUser username w) = Throw (Failure e) /\
    customAttributes e = customAttributes (http_failure 404 body) /\
    userError e =
      Some {| code := JNull;
              dismissible := true;
              text := "We couldn't find a user with the username "
                        ++ dquote ++ username ++ dquote ++ ".";
              type := "error";
              topic := "general" |}.
Proof.
  intros Hemail Husername Hfail Hjson.
  assert (Hvalid : matches EMAIL_REGEX username || matches USERNAME_REGEX username = true)
    by (rewrite Husername; apply orb_true_r).
  rewrite (getUser_valid _ _ Hvalid).
  unfold account_request, not_found, not_found_text. rewrite Hemail, Hfail, Hjson.
  split; [reflexivity |]. eexists. repeat split.
Qed.

(** The lookup of "alice" when nobody is known. *)
Lemma getUser_username_not_found_witness :
  matches EMAIL_REGEX "alice" = false /\
  matches USERNAME_REGEX "alice" = true /\
  requests (snd (getUser (platform := Scenario.nobody) "alice" Scenario.start)) =
    [get_request "https://lms.test/api/user/v1/accounts/alice"] /\
  exists e,
    fst (getUser (platform := Scenario.nobody) "alice" Scenario.start) = Throw (Failure e) /\
    option_map text (userError e)
      = Some ("We couldn't find a user with the username " ++ dquote ++ "alice" ++ dquote ++ ".").
Proof.
  split; [reflexivity | split; [reflexivity |]].
  destruct (getUser_username_not_found (platform := Scenario.nobody)
              "alice" Scenario.start "{}" eq_refl eq_refl eq_refl eq_refl)
    as [Hrequests [e [He [_ Hdescriptor]]]].
  split; [exact Hrequests |].
  exists e. split; [exact He |]. rewrite Hdescriptor. reflexivity.
Defined.

(** The lookup of an unknown address: the positive half of the e-mail
    case. *)
Lemma getUser_email_not_found_witness :
  matches EMAIL_REGEX "bob@example.com" = true /\
  fst (getUser (platform := Scenario.nobody) "bob@example.com" Scenario.start)
    = Throw (Failure (set_userError (http_failure 404 "{}") (not_found "bob@example.com"))) /\
  text (not_found "bob@example.com")
    = "We couldn't find a user with the email " ++ dquote ++ "bob@example.com" ++ dquote ++ ".".
Proof.
  split; [reflexivity |].
  exact (getUser_email_not_found (platform := Scenario.nobody)
           "bob@example.com" Scenario.start "{}" eq_refl eq_refl eq_refl).
Defined.

(** ** More on the single lookups *)

(** X8.  A 404 of the retirement fetch is never parsed: whatever its raw
    body, and whether the identifier is a username or an address,
    [getRetirement] resolves to the failure object itself, tagged with a
    descriptor that speaks of a username, and writes nothing to the
    console. *)
Theorem getRetirement_unknown_user {platform : Platform}
    (username : string) (w : World) (body : string) :
  remote (requests w) (retirement_request username) = Fail 404 body ->
  exists object,
    getRetirement username w = (Return (Some object), sent w (retirement_request username)) /\
    customAttributes object = Some {| httpErrorStatus := 404;
                                      httpErrorResponseData := body |} /\
    userError object =
      Some {| code := JNull;
              dismissible := true;
              text := "We couldn't find a user with the username "
                        ++ dquote ++ username ++ dquote ++ ".";
              type := "error";
              topic := "general" |}.
Proof.
  intros Hfail. rewrite (getRetirement_failed _ _ _ _ Hfail). cbn [Z.eqb Pos.eqb].
  eexists. repeat split.
Qed.

(** The retirement endpoint answers 404 with an HTML page. *)
Lemma getRetirement_unknown_user_witness :
  remote (Platform := Cases.mixed) (requests Scenario.start)
    (retirement_request (platform := Cases.mixed) "erin") = Fail 404 "<Response is HTML>" /\
  Json.parses "<Response is HTML>" = false /\
  exists object,
    getRetirement (platform := Cases.mixed) "erin" Scenario.start
      = (Return (Some object),
         sent Scenario.start (retirement_request (platform := Cases.mixed) "erin")) /\
    option_map type (userError object) = Some "error".
Proof.
  split; [reflexivity | split; [reflexivity |]].
  destruct (getRetirement_unknown_user (platform := Cases.mixed)
              "erin" Scenario.start "<Response is HTML>" eq_refl)
    as [object [Hrun [_ Hdescriptor]]].
  exists object. split; [exact Hrun |]. rewrite Hdescriptor. reflexivity.
Defined.

(** X9.  A retirement record that is [null] or [undefined] once its keys are
    camel-cased makes [getRetirement] raise a [TypeError]: the read of
    [retirementRequestDate] fails inside the [try], and the handler then reads
    [customAttributes] of that error, which has none. *)
Theorem getRetirement_null_record {platform : Platform}
    (username : string) (w : World) (data : JsValue) :
  remote (requests w) (retirement_request username) = Ok data ->
  camelCaseObject data = JNull \/ camelCaseObject data = JUndefined ->
  getRetirement username w = (Throw TypeError, sent w (retirement_request username)).
Proof.
  intros Hok Hnull. unfold getRetirement, retirement_request, get_request, sent in *.
  unfold_async. rewrite Hok. async_simpl.
  destruct Hnull as [-> | ->]; reflexivity.
Qed.

(** The retirement endpoint answers 200 with [null]. *)
Lemma getRetirement_null_record_witness :
  remote (Platform := Cases.mixed) (requests Scenario.start)
    (retirement_request (platform := Cases.mixed) "dave") = Ok JNull /\
  getRetirement (platform := Cases.mixed) "dave" Scenario.start
    = (Throw TypeError,
       sent Scenario.start (retirement_request (platform := Cases.mixed) "dave")).
Proof.
  split; [reflexivity |].
  apply (getRetirement_null_record (platform := Cases.mixed) "dave" Scenario.start JNull);
    [reflexivity | left; reflexivity].
Defined.

(** The verification endpoint answers 500 with a JSON body. *)
Lemma getUserVerificationStatus_degrades_witness :
  remote (Platform := Scenario.json_errors) (requests Scenario.start)
    (verification_request (platform := Scenario.json_errors) "alice") = Fail 500 "{}" /\
  Json.parses "{}" = true /\
  fst (getUserVerificationStatus (platform := Scenario.json_errors) (JStr "alice")
         Scenario.start)
    = Return (JObj [("status", JStr "Error, status unknown");
                    ("expirationDatetime", JStr EmptyString);
                    ("isVerified", JBool false)]).
Proof.
  split; [reflexivity | split; [reflexivity |]].
  exact (getUserVerificationStatus_degrades (platform := Scenario.json_errors)
           (JStr "alice") Scenario.start 500 "{}" eq_refl eq_refl).
Defined.

(** X11.  A failed course lookup whose body is JSON text resolves to one
    descriptor of topic "course-summary" that quotes the course: an "error"
    that no summary was found on a 404, a "danger" on any other status. *)
Theorem getCourseData_degrades {platform : Platform}
    (courseUUID : JsValue) (w : World) (status : Z) (body : string) :
  remote (requests w)
    (get_request (DISCOVERY_API_BASE_URL ++ "/api/v1/courses/" ++ ToString courseUUID ++ "/"))
    = Fail status body ->
  Json.parses body = true ->
  fst (getCourseData courseUUID w) =
    Return (Errors
      [{| code := JNull;
          dismissible := true;
          text := (if (status =? 404)%Z
                   then "We couldn't find summary data for this Course "
                   else "Error finding summary data for this Course ")
                    ++ dquote ++ ToString courseUUID ++ dquote ++ ".";
          type := if (status =? 404)%Z then "error" else "danger";
          topic := "course-summary" |}]).
Proof.
  intros Hfail Hjson. unfold getCourseData, get_request in *. unfold_async.
  rewrite Hfail. async_simpl. rewrite Hjson. async_simpl.
  destruct (status =? 404)%Z; reflexivity.
Qed.

(** The discovery service answers 500 for the course "c1". *)
Lemma getCourseData_degrades_witness :
  remote (Platform := Cases.mixed) (requests Scenario.start)
    (get_request "https://discovery.test/api/v1/courses/c1/") = Fail 500 "[]" /\
  Json.parses "[]" = true /\
  fst (getCourseData (platform := Cases.mixed) (JStr "c1") Scenario.start) =
    Return (Errors
      [{| code := JNull;
          dismissible := true;
          text := "Error finding summary data for this Course "
                    ++ dquote ++ "c1" ++ dquote ++ ".";
          type := "danger";
          topic := "course-summary" |}]).
Proof.
  split; [reflexivity | split; [reflexivity |]].
  exact (getCourseData_degrades (platform := Cases.mixed)
           (JStr "c1") Scenario.start 500 "[]" eq_refl eq_refl).
Defined.

(** ** What the swallowing wrappers let through *)

Lemma submission_failed_raises (topic : string) (status : Z) (body : string)
    (w : World) (thrown : Thrown) :
  fst (submission_failed topic (Failure (http_failure status body)) w) = Throw thrown ->
  thrown = SyntaxError /\ status = 400%Z /\ Json.parses body = false.
Proof.
  rewrite submission_failed_run.
  destruct (Z.eqb_spec status 400); [| discriminate].
  destruct (Json.parses body); [discriminate |].
  cbn [fst]. intros H. inversion H. auto.
Qed.

(** X12.  The verification-status lookup, the course lookup and the three
    mutations never pass on the failure of the HTTP client: the only thing
    any of them can raise is the [SyntaxError] of parsing the raw body of the
    failure. *)
Theorem swallowing_wrappers_raise_only_syntax_errors {platform : Platform} :
  (forall username w thrown,
     fst (getUserVerificationStatus username w) = Throw thrown -> thrown = SyntaxError) /\
  (forall courseUUID w thrown,
     fst (getCourseData courseUUID w) = Throw thrown -> thrown = SyntaxError) /\
  (forall args w thrown,
     fst (patchEntitlement args w) = Throw thrown -> thrown = SyntaxError) /\
  (forall args w thrown,
     fst (postEntitlement args w) = Throw thrown -> thrown = SyntaxError) /\
  (forall args w thrown,
     fst (postEnrollmentChange args w) = Throw thrown -> thrown = SyntaxError).
Proof.
  repeat match goal with |- _ /\ _ => split end.
  - intros username w thrown. rewrite getUserVerificationStatus_run. cbv zeta.
    destruct (remote _ _) as [data | status body]; [discriminate |].
    destruct (Json.parses body); [discriminate |].
    cbn [fst]. intros H. inversion H. reflexivity.
  - intros courseUUID w thrown. unfold getCourseData. unfold_async.
    destruct (remote _ _) as [data | status body]; async_simpl; [discriminate |].
    destruct (Json.parses body); async_simpl.
    + destruct (status =? 404)%Z; discriminate.
    + intros H. inversion H. reflexivity.
  - intros args w thrown. rewrite patchEntitlement_run. cbv zeta.
    destruct (remote _ _) as [data | status body]; [discriminate |].
    intros H. exact (proj1 (submission_failed_raises _ _ _ _ _ H)).
  - intros args w thrown. rewrite postEntitlement_run. cbv zeta.
    destruct (remote _ _) as [data | status body]; [discriminate |].
    intros H. exact (proj1 (submission_failed_raises _ _ _ _ _ H)).
  - intros args w thrown. rewrite postEnrollmentChange_run. cbv zeta.
    destruct (remote _ _) as [data | status body]; [discriminate |].
    intros H. exact (proj1 (submission_failed_raises _ _ _ _ _ H)).
Qed.

(** A change of enrollment mode refused with 400 and an HTML page. *)
Lemma swallowing_wrappers_raise_only_syntax_errors_witness :
  fst (postEnrollmentChange (platform := Cases.mixed) Cases.change_carol Scenario.start)
    = Throw SyntaxError.
Proof.
  destruct (fst (postEnrollmentChange (platform := Cases.mixed) Cases.change_carol
                   Scenario.start)) as [reply | thrown] eqn:H.
  - vm_compute in H. discriminate H.
  - f_equal.
    exact (proj2 (proj2 (proj2 (proj2
             (swallowing_wrappers_raise_only_syntax_errors (platform := Cases.mixed)))))
             Cases.change_carol Scenario.start thrown H).
Defined.

(** X13.  On every failure that is not a 400, HTML page or not, and on a
    400 whose body is JSON text, each of the three mutations resolves to the
    one descriptor of its topic, of type "danger". *)
Theorem mutations_resolve {platform : Platform}
    (patch : PatchEntitlementArgs) (post : PostEntitlementArgs)
    (change : EnrollmentChangeArgs) (w : World) (status : Z) (body : string) :
  status <> 400%Z \/ Json.parses body = true ->
  (remote (requests w) (patch_entitlement_request patch) = Fail status body ->
   fst (patchEntitlement patch w) = Return (Errors [submission_error "entitlements"])) /\
  (remote (requests w) (post_entitlement_request post) = Fail status body ->
   fst (postEntitlement post w) = Return (Errors [submission_error "entitlements"])) /\
  (remote (requests w) (enrollment_change_request change) = Fail status body ->
   fst (postEnrollmentChange change w) = Return (Errors [submission_error "enrollments"])).
Proof.
  intros Hparsed.
  assert (Hhandler : forall topic w',
             fst (submission_failed topic (Failure (http_failure status body)) w')
             = Return (Errors [submission_error topic])).
  { intros topic w'. rewrite submission_failed_run.
    destruct (Z.eqb_spec status 400); [| reflexivity].
    destruct Hparsed as [Hstatus | Hjson]; [contradiction |].
    rewrite Hjson. reflexivity. }
  repeat split; intros Hfail.
  - rewrite patchEntitlement_run, Hfail. apply Hhandler.
  - rewrite postEntitlement_run, Hfail. apply Hhandler.
  - rewrite postEnrollmentChange_run, Hfail. apply Hhandler.
Qed.

(** A conflict answered with an HTML page: the body is never parsed. *)
Lemma mutations_resolve_witness :
  (409%Z <> 400%Z \/ Json.parses "<Response is HTML>" = true) /\
  remote (Platform := Cases.mixed) (requests Scenario.start)
    (enrollment_change_request (platform := Cases.mixed) Scenario.change_alice)
    = Fail 409 "<Response is HTML>" /\
  fst (postEnrollmentChange (platform := Cases.mixed) Scenario.change_alice Scenario.start)
    = Return (Errors [submission_error "enrollments"]).
Proof.
  assert (Hstatus : 409%Z <> 400%Z \/ Json.parses "<Response is HTML>" = true)
    by (left; discriminate).
  split; [exact Hstatus | split; [reflexivity |]].
  apply (proj2 (proj2 (mutations_resolve (platform := Cases.mixed)
                         Scenario.patch_e1 Scenario.post_alice Scenario.change_alice
                         Scenario.start 409 "<Response is HTML>" Hstatus))).
  reflexivity.
Defined.

(** X14.  Each wrapper around a single call sends exactly one request,
    whatever comes back: nothing is retried, and a failure sends nothing
    more. *)
Theorem one_request_per_call {platform : Platform} :
  (forall username w,
     requests (snd (getEntitlements username w))
     = (requests w ++ [entitlements_request (ToString username)])%list) /\
  (forall username w,
     requests (snd (getEnrollments username w))
     = (requests w ++ [enrollments_request (ToString username)])%list) /\
  (forall username w,
     requests (snd (getUserVerificationStatus username w))
     = (requests w ++ [verification_request (ToString username)])%list) /\
  (forall username w,
     requests (snd (getRetirement username w))
     = (requests w ++ [retirement_request username])%list) /\
  (forall courseUUID w,
     requests (snd (getCourseData courseUUID w))
     = (requests w
          ++ [get_request (DISCOVERY_API_BASE_URL ++ "/api/v1/courses/"
                             ++ ToString courseUUID ++ "/")])%list) /\
  (forall args w,
     requests (snd (patchEntitlement args w))
     = (requests w ++ [patch_entitlement_request args])%list) /\
  (forall args w,
     requests (snd (postEntitlement args w))
     = (requests w ++ [post_entitlement_request args])%list) /\
  (forall args w,
     requests (snd (postEnrollmentChange args w))
     = (requests w ++ [enrollment_change_request args])%list).
Proof.
  assert (Hhandler : forall topic status body w',
             requests (snd (submission_failed topic (Failure (http_failure status body)) w'))
             = requests w').
  { intros topic status body w'. rewrite submission_failed_run.
    destruct (status =? 400)%Z; [| reflexivity].
    destruct (Json.parses body); reflexivity. }
  repeat match goal with |- _ /\ _ => split end.
  - intros username w. rewrite getEntitlements_run. cbv zeta.
    destruct (remote _ _); reflexivity.
  - intros username w. rewrite getEnrollments_run. cbv zeta.
    destruct (remote _ _); reflexivity.
  - intros username w. rewrite getUserVerificationStatus_run. cbv zeta.
    destruct (remote _ _) as [data | status body]; [reflexivity |].
    destruct (Json.parses body); reflexivity.
  - intros username w. rewrite getRetirement_sends. reflexivity.
  - intros courseUUID w. unfold getCourseData, get_request. unfold_async.
    destruct (remote _ _) as [data | status body]; async_simpl; [reflexivity |].
    destruct (Json.parses body); async_simpl; [| reflexivity].
    destruct (status =? 404)%Z; reflexivity.
  - intros args w. rewrite patchEntitlement_run. cbv zeta.
    destruct (remote _ _) as [data | status body]; [reflexivity |]. apply Hhandler.
  - intros args w. rewrite postEntitlement_run. cbv zeta.
    destruct (remote _ _) as [data | status body]; [reflexivity |]. apply Hhandler.
  - intros args w. rewrite postEnrollmentChange_run. cbv zeta.
    destruct (remote _ _) as [data | status body]; [reflexivity |]. apply Hhandler.
Qed.

(** ** More on the aggregated lookup *)

Section Aggregation.

Context {platform : Platform}.

(** The workflow once the user lookup has returned a record that is
    neither [null] nor [undefined]: three lookups in a row, the first
    failure ends it. *)
Lemma getAllUserData_with_user (userIdentifier : string) (w w1 : World)
    (record : JsValue) :
  getUser userIdentifier w = (Return record, w1) ->
  record <> JNull -> record <> JUndefined ->
  getAllUserData userIdentifier w =
    let username := get record "username" in
    match getEntitlements username w1 with
    | (Return entitled, w2) =>
        match getEnrollments username w2 with
        | (Return enrolled, w3) =>
            match getUserVerificationStatus username w3 with
            | (Return verified, w4) =>
                (Return {| errors := [];
                           user := record;
                           entitlements := entitled;
                           enrollments := enrolled;
                           verificationStatus := verified |}, w4)
            | (Throw thrown, w4) => (Throw thrown, w4)
            end
        | (Throw thrown, w3) => (Throw thrown, w3)
        end
    | (Throw thrown, w2) => (Throw thrown, w2)
    end.
Proof.
  intros Hu Hnull Hundefined. unfold getAllUserData. unfold_async. rewrite Hu.
  destruct record; try contradiction; cbv beta iota zeta; unfold ret;
    repeat match goal with
           | |- context [match ?f ?u ?w0 with pair _ _ => _ end] =>
               destruct (f u w0) as [[? | ?] ?]
           end; reflexivity.
Qed.

Lemma getEntitlements_sends (username : JsValue) (w : World) :
  requests (snd (getEntitlements username w))
  = (requests w ++ [entitlements_request (ToString username)])%list.
Proof.
  rewrite getEntitlements_run. cbv zeta. destruct (remote _ _); reflexivity.
Qed.

Lemma getEnrollments_sends (username : JsValue) (w : World) :
  requests (snd (getEnrollments username w))
  = (requests w ++ [enrollments_request (ToString username)])%list.
Proof.
  rewrite getEnrollments_run. cbv zeta. destruct (remote _ _); reflexivity.
Qed.

Lemma getUserVerificationStatus_sends (username : JsValue) (w : World) :
  requests (snd (getUserVerificationStatus username w))
  = (requests w ++ [verification_request (ToString username)])%list.
Proof.
  rewrite getUserVerificationStatus_run. cbv zeta.
  destruct (remote _ _) as [data | status body]; [reflexivity |].
  destruct (Json.parses body); reflexivity.
Qed.

(** The descriptor of a failure raised by the user lookup. *)
Lemma getUser_raised_descriptor (userIdentifier : string) (w w1 : World)
    (error : Thrown) (descriptor : ErrorDescriptor) :
  getUser userIdentifier w = (Throw error, w1) ->
  thrown_userError error = Some descriptor ->
  descriptor = not_found userIdentifier \/ descriptor = loading_failed.
Proof.
  intros Hu Hd.
  destruct (matches EMAIL_REGEX userIdentifier || matches USERNAME_REGEX userIdentifier)
    eqn:Hvalid.
  - rewrite (getUser_valid _ _ Hvalid) in Hu. cbv zeta in Hu.
    destruct (remote _ _) as [data | status body]; [discriminate |].
    destruct (Json.parses body); inversion Hu; subst; [| discriminate].
    cbn in Hd. inversion Hd. destruct (status =? 404)%Z; auto.
  - apply orb_false_elim in Hvalid. destruct Hvalid as [He Hn].
    rewrite (getUser_invalid _ _ He Hn) in Hu. inversion Hu; subst. discriminate.
Qed.

(** The descriptor of the object the retirement lookup resolves to is of
    the general topic. *)
Lemma getRetirement_general (username : string) (w w' : World) (object : ErrorObject) :
  getRetirement username w = (Return (Some object), w') ->
  exists retired,
    userError object = Some retired /\ well_formed retired = true
    /\ topic retired = "general".
Proof.
  unfold getRetirement. unfold_async.
  destruct (remote _ _) as [data | status body]; async_simpl.
  - destruct (camelCaseObject data); intros H; inversion H; subst;
      eexists; repeat split.
  - destruct (status =? 404)%Z; intros H; inversion H; subst.
    eexists; repeat split.
Qed.

(** A [null] from the user lookup ends the workflow. *)
Lemma getAllUserData_null_user_eq (userIdentifier : string) (w w1 : World) :
  getUser userIdentifier w = (Return JNull, w1) ->
  getAllUserData userIdentifier w = (Return (only_errors []), w1).
Proof.
  intros Hu. unfold getAllUserData, only_errors. unfold_async. rewrite Hu. reflexivity.
Qed.

End Aggregation.

(** X15.  A user lookup that returns [null] ends the workflow at once:
    no error, every data field at its default, and no dependent lookup is
    sent. *)
Theorem getAllUserData_null_user {platform : Platform}
    (userIdentifier : string) (w w1 : World) :
  getUser userIdentifier w = (Return JNull, w1) ->
  getAllUserData userIdentifier w = (Return (only_errors []), w1).
Proof.
  exact (getAllUserData_null_user_eq userIdentifier w w1).
Qed.

(** The account endpoint answers 200 with [null]. *)
Lemma getAllUserData_null_user_witness :
  getUser (platform := Cases.mixed) "ghost" Scenario.start
    = (Return JNull, sent Scenario.start (account_request (platform := Cases.mixed) "ghost")) /\
  getAllUserData (platform := Cases.mixed) "ghost" Scenario.start
    = (Return (only_errors []),
       sent Scenario.start (account_request (platform := Cases.mixed) "ghost")).
Proof.
  assert (Hu : getUser (platform := Cases.mixed) "ghost" Scenario.start
               = (Return JNull,
                  sent Scenario.start (account_request (platform := Cases.mixed) "ghost")))
    by reflexivity.
  split; [exact Hu |].
  exact (getAllUserData_null_user (platform := Cases.mixed) "ghost" _ _ Hu).
Defined.

(** X16.  Whatever record the user lookup returns, the three dependent
    lookups are keyed on the text of its [username] property: a record
    without that property is looked up under "undefined". *)
Theorem getAllUserData_keyed_on_username {platform : Platform}
    (userIdentifier : string) (w w1 w2 w3 w4 : World)
    (record entitled enrolled verified : JsValue) :
  getUser userIdentifier w = (Return record, w1) ->
  record <> JNull -> record <> JUndefined ->
  getEntitlements (get record "username") w1 = (Return entitled, w2) ->
  getEnrollments (get record "username") w2 = (Return enrolled, w3) ->
  getUserVerificationStatus (get record "username") w3 = (Return verified, w4) ->
  getAllUserData userIdentifier w =
    (Return {| errors := [];
               user := record;
               entitlements := entitled;
               enrollments := enrolled;
               verificationStatus := verified |}, w4) /\
  requests w4 =
    (requests w1 ++ [entitlements_request (ToString (get record "username"));
                     enrollments_request (ToString (get record "username"));
                     verification_request (ToString (get record "username"))])%list.
Proof.
  intros Hu Hnull Hundefined He Hn Hv. split.
  - rewrite (getAllUserData_with_user _ _ _ _ Hu Hnull Hundefined). cbv zeta.
    rewrite He, Hn, Hv. reflexivity.
  - pose proof (getEntitlements_sends (get record "username") w1) as H1.
    pose proof (getEnrollments_sends (get record "username") w2) as H2.
    pose proof (getUserVerificationStatus_sends (get record "username") w3) as H3.
    rewrite He in H1. rewrite Hn in H2. rewrite Hv in H3. cbn [snd] in H1, H2, H3.
    rewrite H3, H2, H1, <- !app_assoc. reflexivity.
Qed.

(** An account without a username. *)
Lemma getAllUserData_keyed_on_username_witness :
  getUser (platform := Cases.mixed) "nameless" Scenario.start
    = (Return Cases.nameless,
       sent Scenario.start (account_request (platform := Cases.mixed) "nameless")) /\
  get Cases.nameless "username" = JUndefined /\
  requests (snd (getAllUserData (platform := Cases.mixed) "nameless" Scenario.start))
    = [account_request (platform := Cases.mixed) "nameless";
       entitlements_request (platform := Cases.mixed) "undefined";
       enrollments_request (platform := Cases.mixed) "undefined";
       verification_request (platform := Cases.mixed) "undefined"].
Proof.
  assert (Hu : getUser (platform := Cases.mixed) "nameless" Scenario.start
               = (Return Cases.nameless,
                  sent Scenario.start (account_request (platform := Cases.mixed) "nameless")))
    by reflexivity.
  split; [exact Hu | split; [reflexivity |]].
  assert (Hnull : Cases.nameless <> JNull) by discriminate.
  assert (Hundefined : Cases.nameless <> JUndefined) by discriminate.
  destruct (getAllUserData_keyed_on_username (platform := Cases.mixed)
              "nameless" Scenario.start _ _ _ _ _ _ _ _
              Hu Hnull Hundefined eq_refl eq_refl eq_refl) as [Hall Hrequests].
  rewrite Hall. cbn [snd]. rewrite Hrequests. reflexivity.
Defined.

(** X17.  When the entitlements lookup fails, [getAllUserData] raises that
    failure as the HTTP client raised it, with no descriptor attached and its
    body unparsed; the record already found is dropped, and neither the
    enrollments nor the verification status is requested. *)
Theorem getAllUserData_entitlements_failure {platform : Platform}
    (userIdentifier : string) (w w1 : World) (record : JsValue)
    (status : Z) (body : string) :
  getUser userIdentifier w = (Return record, w1) ->
  record <> JNull -> record <> JUndefined ->
  remote (requests w1) (entitlements_request (ToString (get record "username")))
    = Fail status body ->
  getAllUserData userIdentifier w =
    (Throw (Failure (http_failure status body)),
     sent w1 (entitlements_request (ToString (get record "username")))) /\
  thrown_userError (Failure (http_failure status body)) = None.
Proof.
  intros Hu Hnull Hundefined Hfail. split; [| reflexivity].
  rewrite (getAllUserData_with_user _ _ _ _ Hu Hnull Hundefined). cbv zeta.
  rewrite getEntitlements_run, Hfail. reflexivity.
Qed.

(** Alice is known but her entitlements cannot be read. *)
Lemma getAllUserData_entitlements_failure_witness :
  getUser (platform := Cases.mixed) "alice" Scenario.start
    = (Return Scenario.alice,
       sent Scenario.start (account_request (platform := Cases.mixed) "alice")) /\
  getAllUserData (platform := Cases.mixed) "alice" Scenario.start =
    (Throw (Failure (http_failure 500 "oops")),
     sent (sent Scenario.start (account_request (platform := Cases.mixed) "alice"))
          (entitlements_request (platform := Cases.mixed) "alice")).
Proof.
  assert (Hu : getUser (platform := Cases.mixed) "alice" Scenario.start
               = (Return Scenario.alice,
                  sent Scenario.start (account_request (platform := Cases.mixed) "alice")))
    by reflexivity.
  assert (Hnull : Scenario.alice <> JNull) by discriminate.
  assert (Hundefined : Scenario.alice <> JUndefined) by discriminate.
  split; [exact Hu |].
  exact (proj1 (getAllUserData_entitlements_failure (platform := Cases.mixed)
                  "alice" Scenario.start _ Scenario.alice 500 "oops"
                  Hu Hnull Hundefined eq_refl)).
Defined.

(** X18.  When the entitlements are read and the enrollments lookup fails,
    [getAllUserData] raises that failure as it came; the record and the
    entitlements already read are dropped and the verification status is not
    requested. *)
Theorem getAllUserData_enrollments_failure {platform : Platform}
    (userIdentifier : string) (w w1 w2 : World) (record entitled : JsValue)
    (status : Z) (body : string) :
  getUser userIdentifier w = (Return record, w1) ->
  record <> JNull -> record <> JUndefined ->
  getEntitlements (get record "username") w1 = (Return entitled, w2) ->
  remote (requests w2) (enrollments_request (ToString (get record "username")))
    = Fail status body ->
  getAllUserData userIdentifier w =
    (Throw (Failure (http_failure status body)),
     sent w2 (enrollments_request (ToString (get record "username")))).
Proof.
  intros Hu Hnull Hundefined He Hfail.
  rewrite (getAllUserData_with_user _ _ _ _ Hu Hnull Hundefined). cbv zeta.
  rewrite He, getEnrollments_run, Hfail. reflexivity.
Qed.

(** Bob is known and entitled but his enrollments are forbidden. *)
Lemma getAllUserData_enrollments_failure_witness :
  getUser (platform := Cases.mixed) "bob" Scenario.start
    = (Return Cases.bob,
       sent Scenario.start (account_request (platform := Cases.mixed) "bob")) /\
  fst (getAllUserData (platform := Cases.mixed) "bob" Scenario.start)
    = Throw (Failure (http_failure 403 "{}")) /\
  requests (snd (getAllUserData (platform := Cases.mixed) "bob" Scenario.start))
    = [account_request (platform := Cases.mixed) "bob";
       entitlements_request (platform := Cases.mixed) "bob";
       enrollments_request (platform := Cases.mixed) "bob"].
Proof.
  assert (Hu : getUser (platform := Cases.mixed) "bob" Scenario.start
               = (Return Cases.bob,
                  sent Scenario.start (account_request (platform := Cases.mixed) "bob")))
    by reflexivity.
  assert (Hnull : Cases.bob <> JNull) by discriminate.
  assert (Hundefined : Cases.bob <> JUndefined) by discriminate.
  split; [exact Hu |].
  rewrite (getAllUserData_enrollments_failure (platform := Cases.mixed)
             "bob" Scenario.start _ _ Cases.bob (JArr []) 403 "{}"
             Hu Hnull Hundefined eq_refl eq_refl).
  split; reflexivity.
Defined.

(** X19.  [getAllUserData] never returns errors and data together: when it
    returns, either [errors] is empty, or it holds exactly two well-formed
    descriptors of the general topic and every data field is at its
    default. *)
Theorem getAllUserData_errors_or_data {platform : Platform}
    (userIdentifier : string) (w w' : World) (result : AggregateResult) :
  getAllUserData userIdentifier w = (Return result, w') ->
  errors result = []
  \/ exists first second,
       result = only_errors [Some first; Some second] /\
       WellFormed first /\ WellFormed second /\
       topic first = "general" /\ topic second = "general".
Proof.
  destruct (getUser userIdentifier w) as [[record | error] w1] eqn:Hu.
  - intros H. left.
    destruct record;
      try (rewrite (getAllUserData_with_user _ _ _ _ Hu) in H;
           [| discriminate | discriminate]; cbv zeta in H;
           repeat match type of H with
                  | context [match ?f ?u ?w0 with pair _ _ => _ end] =>
                      destruct (f u w0) as [[? | ?] ?]
                  end;
           inversion H; reflexivity).
    + unfold getAllUserData in H. unfold_async. rewrite Hu in H. discriminate.
    + rewrite (getAllUserData_null_user_eq userIdentifier w w1 Hu) in H.
      inversion H. reflexivity.
  - intros H. right.
    destruct (getRetirement userIdentifier w1) as [[[object |] | thrown] w2] eqn:Hr.
    + rewrite (getAllUserData_caught _ _ _ _ _ _ Hu Hr) in H.
      destruct (getRetirement_general _ _ _ _ Hr) as [first [Hfirst [Hwf Htopic]]].
      destruct (thrown_userError error) as [second |] eqn:Hsecond; [| discriminate].
      inversion H; subst. exists first, second. rewrite Hfirst.
      split; [reflexivity |]. split; [apply well_formed_spec; exact Hwf |].
      destruct (getUser_raised_descriptor _ _ _ _ _ Hu Hsecond) as [-> | ->];
        (split; [apply well_formed_spec; reflexivity | split; [exact Htopic | reflexivity]]).
    + unfold getAllUserData in H. unfold_async. rewrite Hu, Hr in H. discriminate.
    + unfold getAllUserData in H. unfold_async. rewrite Hu, Hr in H. discriminate.
Qed.

(** Two descriptors and nothing else when nobody is known. *)
Lemma getAllUserData_errors_or_data_witness :
  getAllUserData (platform := Scenario.nobody) "alice" Scenario.start
    = (Return (only_errors [Some (retirement_not_found "alice"); Some (not_found "alice")]),
       Scenario.after_fallback) /\
  WellFormed (retirement_not_found "alice") /\
  WellFormed (not_found "alice").
Proof.
  assert (Hall : getAllUserData (platform := Scenario.nobody) "alice" Scenario.start
                 = (Return (only_errors [Some (retirement_not_found "alice");
                                         Some (not_found "alice")]),
                    Scenario.after_fallback)) by reflexivity.
  split; [exact Hall |].
  destruct (getAllUserData_errors_or_data (platform := Scenario.nobody) _ _ _ _ Hall)
    as [Hempty | [first [second [Hresult [Hfirst [Hsecond _]]]]]].
  - discriminate Hempty.
  - inversion Hresult; subst. split; assumption.
Defined.

Section Footprint.

Context {platform : Platform}.

Lemma gets_at_most_snoc (n : nat) (new : list Request) (url : string) :
  gets_at_most n new -> gets_at_most (S n) (new ++ [get_request url]).
Proof.
  intros [Hlen Hall]. split.
  - rewrite length_app. cbn. lia.
  - apply Forall_app. split; [exact Hall |]. constructor; [| constructor].
    split; reflexivity.
Qed.

Lemma gets_at_most_le (n m : nat) (new : list Request) :
  (n <= m)%nat -> gets_at_most n new -> gets_at_most m new.
Proof.
  intros Hle [Hlen Hall]. split; [lia | exact Hall].
Qed.

Lemma getUser_footprint (userIdentifier : string) (w : World) :
  exists new,
    requests (snd (getUser userIdentifier w)) = (requests w ++ new)%list
    /\ gets_at_most 1 new.
Proof.
  destruct (matches EMAIL_REGEX userIdentifier || matches USERNAME_REGEX userIdentifier)
    eqn:Hvalid.
  - exists [account_request userIdentifier]. split.
    + rewrite (getUser_valid _ _ Hvalid). cbv zeta.
      destruct (remote _ _) as [data | status body]; [reflexivity |].
      destruct (Json.parses body); reflexivity.
    + apply (gets_at_most_snoc 0 []). split; [apply le_n | constructor].
  - apply orb_false_elim in Hvalid. destruct Hvalid as [He Hn].
    exists []. split.
    + rewrite (getUser_invalid _ _ He Hn). cbn [snd]. symmetry. apply app_nil_r.
    + split; [cbn; lia | constructor].
Qed.

End Footprint.

(** X20.  One run of [getAllUserData] sends at most four requests, all of
    them [GET] requests without a body: the workflow never retries and never
    writes to the remote service. *)
Theorem getAllUserData_sends_at_most_four_gets {platform : Platform}
    (userIdentifier : string) (w : World) :
  exists new,
    requests (snd (getAllUserData userIdentifier w)) = (requests w ++ new)%list /\
    (length new <= 4)%nat /\
    Forall (fun r => method r = GET /\ payload r = None) new.
Proof.
  destruct (getUser_footprint userIdentifier w) as [new1 [Hfoot Hnew1]].
  destruct (getUser userIdentifier w) as [[record | error] w1] eqn:Hu; cbn [snd] in Hfoot.
  - assert (Hstop : gets_at_most 4 new1) by (apply (gets_at_most_le 1); [lia | exact Hnew1]).
    assert (Hcases : record = JUndefined \/ record = JNull
                     \/ (record <> JNull /\ record <> JUndefined)).
    { destruct record; auto; right; right; split; discriminate. }
    destruct Hcases as [-> | [-> | [Hnull Hundefined]]].
    + exists new1. split; [| exact Hstop].
      unfold getAllUserData. unfold_async. rewrite Hu. exact Hfoot.
    + exists new1. split; [| exact Hstop].
      rewrite (getAllUserData_null_user_eq _ _ _ Hu). exact Hfoot.
    + rewrite (getAllUserData_with_user _ _ _ _ Hu Hnull Hundefined). cbv zeta.
      pose proof (getEntitlements_sends (get record "username") w1) as H1.
      set (r1 := entitlements_request (ToString (get record "username"))) in *.
      set (r2 := enrollments_request (ToString (get record "username"))).
      set (r3 := verification_request (ToString (get record "username"))).
      assert (Hone : gets_at_most 2 (new1 ++ [r1]))
        by (apply (gets_at_most_snoc 1); exact Hnew1).
      assert (Htwo : gets_at_most 3 ((new1 ++ [r1]) ++ [r2]))
        by (apply (gets_at_most_snoc 2); exact Hone).
      assert (Hthree : gets_at_most 4 (((new1 ++ [r1]) ++ [r2]) ++ [r3]))
        by (apply (gets_at_most_snoc 3); exact Htwo).
      destruct (getEntitlements _ w1) as [[entitled | thrown1] w2]; cbn [snd] in H1.
      * pose proof (getEnrollments_sends (get record "username") w2) as H2.
        fold r2 in H2.
        destruct (getEnrollments _ w2) as [[enrolled | thrown2] w3]; cbn [snd] in H2.
        -- pose proof (getUserVerificationStatus_sends (get record "username") w3) as H3.
           fold r3 in H3.
           exists (((new1 ++ [r1]) ++ [r2]) ++ [r3])%list. split; [| exact Hthree].
           destruct (getUserVerificationStatus _ w3) as [[verified | thrown3] w4];
             cbn [snd] in H3 |- *; rewrite H3, H2, H1, Hfoot;
             rewrite <- !app_assoc; reflexivity.
        -- exists ((new1 ++ [r1]) ++ [r2])%list. split.
           ++ cbn [snd]. rewrite H2, H1, Hfoot. rewrite <- !app_assoc. reflexivity.
           ++ apply (gets_at_most_le 3); [lia | exact Htwo].
      * exists (new1 ++ [r1])%list. split.
        -- cbn [snd]. rewrite H1, Hfoot. rewrite <- !app_assoc. reflexivity.
        -- apply (gets_at_most_le 2); [lia | exact Hone].
  - exists (new1 ++ [retirement_request userIdentifier])%list. split.
    + rewrite (getAllUserData_retirement_sent _ _ _ _ Hu). cbn [requests sent].
      rewrite Hfoot, <- app_assoc. reflexivity.
    + apply (gets_at_most_le 2); [lia |]. apply (gets_at_most_snoc 1). exact Hnew1.
Qed.

(** X21.  An identifier that neither pattern accepts still reaches the
    remote service through [getAllUserData]: the retirement lookup is sent
    with the identifier as it is, and when that lookup resolves to an object
    the invalid-argument error is raised again. *)
Theorem getAllUserData_invalid_identifier {platform : Platform}
    (userIdentifier : string) (w : World) :
  matches EMAIL_REGEX userIdentifier = false ->
  matches USERNAME_REGEX userIdentifier = false ->
  snd (getAllUserData userIdentifier w) = sent w (retirement_request userIdentifier) /\
  forall status body,
    remote (requests w) (retirement_request userIdentifier) = Fail status body ->
    fst (getAllUserData userIdentifier w) =
      if (status =? 404)%Z then Throw (Error "Invalid Argument!") else Throw TypeError.
Proof.
  intros Hemail Husername.
  pose proof (getUser_invalid userIdentifier w Hemail Husername) as Hu. split.
  - exact (getAllUserData_retirement_sent _ _ _ _ Hu).
  - intros status body Hfail.
    pose proof (getRetirement_failed _ _ _ _ Hfail) as Hr.
    destruct (status =? 404)%Z.
    + rewrite (getAllUserData_caught _ _ _ _ _ _ Hu Hr). reflexivity.
    + unfold getAllUserData. unfold_async. rewrite Hu, Hr. reflexivity.
Qed.

(** An identifier with a slash in it. *)
Lemma getAllUserData_invalid_identifier_witness :
  matches EMAIL_REGEX "a/b" = false /\
  matches USERNAME_REGEX "a/b" = false /\
  requests (snd (getAllUserData (platform := Scenario.nobody) "a/b" Scenario.start))
    = [get_request "https://lms.test/api/user/v1/accounts/a/b/retirement_information/"] /\
  fst (getAllUserData (platform := Scenario.nobody) "a/b" Scenario.start)
    = Throw (Error "Invalid Argument!").
Proof.
  split; [reflexivity | split; [reflexivity |]].
  destruct (getAllUserData_invalid_identifier (platform := Scenario.nobody)
              "a/b" Scenario.start eq_refl eq_refl) as [Hsent Hraised].
  split.
  - rewrite Hsent. reflexivity.
  - exact (Hraised 404%Z "{}" eq_refl).
Defined.

(** X22.  An address that neither endpoint knows gives two descriptors
    that name it differently: the first, from the retirement lookup, quotes
    it as a username, the second, from the user lookup, as an e-mail. *)
Theorem getAllUserData_unknown_email {platform : Platform}
    (email : string) (w : World) (body body' : string) :
  matches EMAIL_REGEX email = true ->
  remote (requests w) (email_request email) = Fail 404 body ->
  Json.parses body = true ->
  remote (requests w ++ [email_request email])%list (retirement_request email)
    = Fail 404 body' ->
  exists first second,
    fst (getAllUserData email w) = Return (only_errors [Some first; Some second]) /\
    text first = "We couldn't find a user with the username "
                   ++ dquote ++ email ++ dquote ++ "." /\
    text second = "We couldn't find a user with the email "
                    ++ dquote ++ email ++ dquote ++ ".".
Proof.
  intros Hemail Hfail Hjson Hretirement.
  assert (Hvalid : matches EMAIL_REGEX email || matches USERNAME_REGEX email = true)
    by (rewrite Hemail; reflexivity).
  pose proof (getUser_valid email w Hvalid) as Hu.
  unfold account_request in Hu. rewrite Hemail in Hu. fold (email_request email) in Hu.
  rewrite Hfail, Hjson in Hu. cbv zeta in Hu. cbn [Z.eqb Pos.eqb] in Hu.
  pose proof (getRetirement_failed email
                (logged (sent w (email_request email)) body) 404 body' Hretirement) as Hr.
  cbn [Z.eqb Pos.eqb] in Hr.
  rewrite (getAllUserData_caught _ _ _ _ _ _ Hu Hr). cbn [thrown_userError userError set_userError fst].
  exists (retirement_not_found email), (not_found email).
  split; [reflexivity | split; [reflexivity |]].
  unfold not_found, not_found_text. rewrite Hemail. reflexivity.
Qed.

(** An unknown address. *)
Lemma getAllUserData_unknown_email_witness :
  matches EMAIL_REGEX "bob@example.com" = true /\
  exists first second,
    fst (getAllUserData (platform := Scenario.nobody) "bob@example.com" Scenario.start)
      = Return (only_errors [Some first; Some second]) /\
    text first = "We couldn't find a user with the username "
                   ++ dquote ++ "bob@example.com" ++ dquote ++ "." /\
    text second = "We couldn't find a user with the email "
                    ++ dquote ++ "bob@example.com" ++ dquote ++ ".".
Proof.
  split; [reflexivity |].
  exact (getAllUserData_unknown_email (platform := Scenario.nobody)
           "bob@example.com" Scenario.start "{}" "{}" eq_refl eq_refl eq_refl eq_refl).
Defined.

(** ** The license card *)

(** X23.  [LicenseCard] shows the card exactly when its record is neither
    [null] nor [undefined], and then the table has one row, built from that
    record with its four dates formatted: a missing record is never read. *)
Theorem LicenseCard_shows_one_row (formatDate : JsValue -> JsValue)
    (licenseRecord : JsValue) :
  (LicenseCard formatDate licenseRecord = Fragment
   <-> licenseRecord = JNull \/ licenseRecord = JUndefined) /\
  (forall title status expiration rows,
     LicenseCard formatDate licenseRecord = Card title status expiration rows ->
     rows = [{| assignedDate := formatDate (get licenseRecord "assignedDate");
                activationDate := formatDate (get licenseRecord "activationDate");
                revokedDate := formatDate (get licenseRecord "revokedDate");
                lastRemindDate := formatDate (get licenseRecord "lastRemindDate");
                activationLink := get licenseRecord "activationLink" |}]
     /\ title = get licenseRecord "subscriptionPlanTitle"
     /\ expiration = formatDate (get licenseRecord "subscriptionPlanExpirationDate")).
Proof.
  split.
  - split.
    + destruct licenseRecord; cbn; intros H; try discriminate; auto.
    + intros [-> | ->]; reflexivity.
  - intros title status expiration rows.
    destruct licenseRecord; cbn; intros H; try discriminate;
      inversion H; subst; repeat split.
Qed.

(** An activated license with one date. *)
Lemma LicenseCard_shows_one_row_witness :
  exists title status expiration row,
    LicenseCard (fun date => date) Cases.license = Card title status expiration [row] /\
    assignedDate row = JStr "2021-01-01" /\
    revokedDate row = JUndefined /\
    title = JStr "Plan".
Proof.
  eexists. eexists. eexists. eexists. split; [reflexivity |].
  destruct (proj2 (LicenseCard_shows_one_row (fun date => date) Cases.license)
              _ _ _ _ eq_refl) as [Hrows [Htitle _]].
  inversion Hrows. split; [reflexivity | split; [reflexivity | exact Htitle]].
Defined.
